(** * The 4mica core AVS performer: payload validation and dispatch

    A shallow embedding of the task workers of the repository (the
    [TaskWorker] types with their [ValidateTask] and [HandleTask] methods)
    together with the parts of the Go libraries they call: [encoding/hex],
    [crypto/sha256], Keccak-256 and the static fragment of go-ethereum's
    [accounts/abi] that the workers and their tests declare. *)

From Stdlib Require Import ZArith List Lia.
From Stdlib.Strings Require Import String Ascii Byte.
From Stdlib Require Import DecimalString.
From stdpp Require Import gmap strings.
Import ListNotations.

#[local] Set Warnings "-register-all".

Local Open Scope Z_scope.

(** ** Byte slices *)

Module Bytes.

(** Go's [byte] is [Byte.byte]; a [[]byte] is a list of them. *)
Definition to_Z (b : byte) : Z := Z.of_N (Byte.to_N b).

Definition of_Z (z : Z) : byte :=
  match Byte.of_N (Z.to_N (z mod 256)) with
  | Some b => b
  | None => x00
  end.

(** [[]byte(s)] and [string(b)]. *)
Definition of_string (s : string) : list byte := list_byte_of_string s.
Definition to_string (b : list byte) : string := string_of_list_byte b.

(** Big-endian and little-endian words. *)
Fixpoint be_to_Z_acc (acc : Z) (bs : list byte) : Z :=
  match bs with
  | [] => acc
  | b :: rest => be_to_Z_acc (acc * 256 + to_Z b) rest
  end.

Definition be_to_Z (bs : list byte) : Z := be_to_Z_acc 0 bs.

Fixpoint le_to_Z (bs : list byte) : Z :=
  match bs with
  | [] => 0
  | b :: rest => to_Z b + 256 * le_to_Z rest
  end.

Fixpoint le_of_Z (n : nat) (z : Z) : list byte :=
  match n with
  | O => []
  | S n' => of_Z z :: le_of_Z n' (z / 256)
  end.

Definition be_of_Z (n : nat) (z : Z) : list byte := rev (le_of_Z n z).

(** Cut a slice into chunks of [n] bytes ([fuel] bounds the number of
    chunks; the last chunk may be shorter). *)
Fixpoint chunks (fuel n : nat) (bs : list byte) : list (list byte) :=
  match fuel with
  | O => []
  | S fuel' =>
      match bs with
      | [] => []
      | _ => firstn n bs :: chunks fuel' n (skipn n bs)
      end
  end.

End Bytes.

(** ** encoding/hex *)

Module Hex.

Definition hextable : list ascii :=
  list_ascii_of_string "0123456789abcdef".

Definition digit (n : Z) : ascii :=
  nth (Z.to_nat n) hextable "0"%char.

(** [hex.EncodeToString]: two lowercase digits per byte, high nibble
    first. *)
Fixpoint EncodeToString (src : list byte) : string :=
  match src with
  | [] => EmptyString
  | v :: rest =>
      String (digit (Z.shiftr (Bytes.to_Z v) 4))
        (String (digit (Z.land (Bytes.to_Z v) 15)) (EncodeToString rest))
  end.

(** [fromHexChar] *)
Definition fromHexChar (c : byte) : option Z :=
  let n := Bytes.to_Z c in
  if (48 <=? n) && (n <=? 57) then Some (n - 48)
  else if (97 <=? n) && (n <=? 102) then Some (n - 97 + 10)
  else if (65 <=? n) && (n <=? 70) then Some (n - 65 + 10)
  else None.

End Hex.

(** ** crypto/sha256 (FIPS 180-4) *)

Module Sha256.

Definition mask32 : Z := 4294967295.
Definition add32 (x y : Z) : Z := Z.land (x + y) mask32.
Definition rotr32 (n x : Z) : Z :=
  Z.lor (Z.shiftr x n) (Z.land (Z.shiftl x (32 - n)) mask32).
Definition not32 (x : Z) : Z := Z.lxor x mask32.

Definition Ch (x y z : Z) : Z := Z.lxor (Z.land x y) (Z.land (not32 x) z).
Definition Maj (x y z : Z) : Z :=
  Z.lxor (Z.lxor (Z.land x y) (Z.land x z)) (Z.land y z).
Definition bsig0 (x : Z) : Z :=
  Z.lxor (Z.lxor (rotr32 2 x) (rotr32 13 x)) (rotr32 22 x).
Definition bsig1 (x : Z) : Z :=
  Z.lxor (Z.lxor (rotr32 6 x) (rotr32 11 x)) (rotr32 25 x).
Definition ssig0 (x : Z) : Z :=
  Z.lxor (Z.lxor (rotr32 7 x) (rotr32 18 x)) (Z.shiftr x 3).
Definition ssig1 (x : Z) : Z :=
  Z.lxor (Z.lxor (rotr32 17 x) (rotr32 19 x)) (Z.shiftr x 10).

(** The round constants, four to a row. *)
Definition _K : list Z :=
  concat
    [ [0x428a2f98; 0x71374491; 0xb5c0fbcf; 0xe9b5dba5];
      [0x3956c25b; 0x59f111f1; 0x923f82a4; 0xab1c5ed5];
      [0xd807aa98; 0x12835b01; 0x243185be; 0x550c7dc3];
      [0x72be5d74; 0x80deb1fe; 0x9bdc06a7; 0xc19bf174];
      [0xe49b69c1; 0xefbe4786; 0x0fc19dc6; 0x240ca1cc];
      [0x2de92c6f; 0x4a7484aa; 0x5cb0a9dc; 0x76f988da];
      [0x983e5152; 0xa831c66d; 0xb00327c8; 0xbf597fc7];
      [0xc6e00bf3; 0xd5a79147; 0x06ca6351; 0x14292967];
      [0x27b70a85; 0x2e1b2138; 0x4d2c6dfc; 0x53380d13];
      [0x650a7354; 0x766a0abb; 0x81c2c92e; 0x92722c85];
      [0xa2bfe8a1; 0xa81a664b; 0xc24b8b70; 0xc76c51a3];
      [0xd192e819; 0xd6990624; 0xf40e3585; 0x106aa070];
      [0x19a4c116; 0x1e376c08; 0x2748774c; 0x34b0bcb5];
      [0x391c0cb3; 0x4ed8aa4a; 0x5b9cca4f; 0x682e6ff3];
      [0x748f82ee; 0x78a5636f; 0x84c87814; 0x8cc70208];
      [0x90befffa; 0xa4506ceb; 0xbef9a3f7; 0xc67178f2] ].

(** The eight chaining words. *)
Record digest := Digest {
  h0 : Z; h1 : Z; h2 : Z; h3 : Z; h4 : Z; h5 : Z; h6 : Z; h7 : Z }.

Definition init : digest :=
  Digest 0x6a09e667 0xbb67ae85 0x3c6ef372 0xa54ff53a
         0x510e527f 0x9b05688c 0x1f83d9ab 0x5be0cd19.

(** The message schedule, kept newest word first: [extend n w] appends
    [n] further words to the reversed schedule [w]. *)
Definition next_word (w : list Z) : Z :=
  add32 (add32 (ssig1 (nth 1 w 0)) (nth 6 w 0))
        (add32 (ssig0 (nth 14 w 0)) (nth 15 w 0)).

Fixpoint extend (n : nat) (w : list Z) : list Z :=
  match n with
  | O => w
  | S n' => extend n' (next_word w :: w)
  end.

Definition schedule (blk : list byte) : list Z :=
  rev (extend 48 (rev (map Bytes.be_to_Z (Bytes.chunks 16 4 blk)))).

Definition round (s : digest) (kw : Z * Z) : digest :=
  let '(k, w) := kw in
  let t1 := add32 (add32 (add32 (h7 s) (bsig1 (h4 s)))
                         (add32 (Ch (h4 s) (h5 s) (h6 s)) k)) w in
  let t2 := add32 (bsig0 (h0 s)) (Maj (h0 s) (h1 s) (h2 s)) in
  Digest (add32 t1 t2) (h0 s) (h1 s) (h2 s)
         (add32 (h3 s) t1) (h4 s) (h5 s) (h6 s).

Definition block (s : digest) (blk : list byte) : digest :=
  let r := fold_left round (combine _K (schedule blk)) s in
  Digest (add32 (h0 s) (h0 r)) (add32 (h1 s) (h1 r))
         (add32 (h2 s) (h2 r)) (add32 (h3 s) (h3 r))
         (add32 (h4 s) (h4 r)) (add32 (h5 s) (h5 r))
         (add32 (h6 s) (h6 r)) (add32 (h7 s) (h7 r)).

(** Padding: a 1 bit, zeros up to 56 modulo 64, then the bit length as a
    64-bit big-endian number. *)
Definition pad (msg : list byte) : list byte :=
  let len := Z.of_nat (length msg) in
  let zeros := Z.to_nat ((55 - len) mod 64) in
  msg ++ x80 :: repeat x00 zeros ++ Bytes.be_of_Z 8 (8 * len).

Definition Sum256 (data : list byte) : list byte :=
  let p := pad data in
  let s := fold_left block (Bytes.chunks (length p) 64 p) init in
  concat (map (Bytes.be_of_Z 4)
            [h0 s; h1 s; h2 s; h3 s; h4 s; h5 s; h6 s; h7 s]).

End Sha256.

(** ** Keccak-256 (the digest go-ethereum's [crypto.Keccak256] computes) *)

Module Keccak.

Definition mask64 : Z := 18446744073709551615.
Definition rotl64 (n x : Z) : Z :=
  Z.lor (Z.land (Z.shiftl x n) mask64) (Z.shiftr x (64 - n)).
Definition not64 (x : Z) : Z := Z.lxor x mask64.

(** The state is 25 lanes of 64 bits; lane (x, y) sits at index
    [x + 5 * y]. *)
Definition lane (a : list Z) (x y : nat) : Z :=
  nth ((x mod 5) + 5 * (y mod 5))%nat a 0.

Definition coords : list (nat * nat) :=
  flat_map (fun y => map (fun x => (x, y)) (seq 0 5)) (seq 0 5).

Definition rotc : list Z :=
  [ 0; 1; 62; 28; 27;   36; 44; 6; 55; 20;   3; 10; 43; 25; 39;
    41; 45; 15; 21; 8;  18; 2; 61; 56; 14 ].

Definition RC : list Z :=
  [ 0x0000000000000001; 0x0000000000008082; 0x800000000000808A;
    0x8000000080008000; 0x000000000000808B; 0x0000000080000001;
    0x8000000080008081; 0x8000000000008009; 0x000000000000008A;
    0x0000000000000088; 0x0000000080008009; 0x000000008000000A;
    0x000000008000808B; 0x800000000000008B; 0x8000000000008089;
    0x8000000000008003; 0x8000000000008002; 0x8000000000000080;
    0x000000000000800A; 0x800000008000000A; 0x8000000080008081;
    0x8000000000008080; 0x0000000080000001; 0x8000000080008008 ].

Definition theta (a : list Z) : list Z :=
  let c x :=
    Z.lxor (Z.lxor (Z.lxor (Z.lxor (lane a x 0) (lane a x 1)) (lane a x 2))
                   (lane a x 3)) (lane a x 4) in
  let d x := Z.lxor (c (x + 4)%nat) (rotl64 1 (c (x + 1)%nat)) in
  map (fun '(x, y) => Z.lxor (lane a x y) (d x)) coords.

(** rho and pi together: the lane that lands on (x, y) comes from
    (x + 3y, x). *)
Definition rho_pi (a : list Z) : list Z :=
  map (fun '(x, y) =>
         let sx := ((x + 3 * y) mod 5)%nat in
         rotl64 (nth (sx + 5 * x)%nat rotc 0) (lane a sx x)) coords.

Definition chi (b : list Z) : list Z :=
  map (fun '(x, y) =>
         Z.lxor (lane b x y)
           (Z.land (not64 (lane b (x + 1) y)) (lane b (x + 2) y))) coords.

Definition iota (rc : Z) (a : list Z) : list Z :=
  match a with
  | [] => []
  | a0 :: rest => Z.lxor a0 rc :: rest
  end.

Definition round (a : list Z) (rc : Z) : list Z :=
  iota rc (chi (rho_pi (theta a))).

Definition keccakF1600 (a : list Z) : list Z := fold_left round RC a.

Definition rate : nat := 136.

(** Multi-rate padding with the original Keccak domain byte 0x01. *)
Definition pad (msg : list byte) : list byte :=
  let q := (rate - length msg mod rate)%nat in
  match q with
  | 1%nat => msg ++ [x81]
  | _ => msg ++ x01 :: repeat x00 (q - 2) ++ [x80]
  end.

Fixpoint xor_lanes (a b : list Z) : list Z :=
  match a, b with
  | x :: a', y :: b' => Z.lxor x y :: xor_lanes a' b'
  | _, [] => a
  | [], _ => []
  end.

Definition absorb (a : list Z) (blk : list byte) : list Z :=
  keccakF1600 (xor_lanes a (map Bytes.le_to_Z (Bytes.chunks 17 8 blk))).

Definition Keccak256 (data : list byte) : list byte :=
  let p := pad data in
  let a := fold_left absorb (Bytes.chunks (length p) rate p) (repeat 0 25) in
  concat (map (Bytes.le_of_Z 8) (firstn 4 a)).

End Keccak.

(** ** The Go run-time fragment the workers rely on *)

Module Go.

(** Values of type [interface{}]: the operands of format verbs, of log
    fields and of [abi] packing. [array b] is the fixed-size array
    [[n]byte] with [n = length b]; [bytes b] is a slice. An [error] is
    kept as the format string and operands handed to [fmt.Errorf] (or the
    text handed to [errors.New], with no operands), so that a wrapped
    cause ([%w]) stays inspectable. *)
Inductive any : Type :=
| int (n : Z)
| str (s : string)
| bytes (b : list byte)
| array (b : list byte)
| bigInt (z : Z)
| err (e : error)
| task (taskId payload metadata : list byte)
with error : Type :=
| Errorf (format : string) (args : list any).

(** What a call can do: return normally, return a non-nil [error], or
    panic. *)
Inductive result (A : Type) : Type :=
| Ok (a : A)
| Err (e : error)
| Panic (msg : string).
Arguments Ok {A} a.
Arguments Err {A} e.
Arguments Panic {A} msg.

(** [s[:n]], [s[n:]] and [s[lo:hi]] panic out of range. The bound taken
    for the upper index is the length of the slice (its capacity is at
    least that). *)
Definition slice_to (s : list byte) (n : nat) : result (list byte) :=
  if (n <=? length s)%nat then Ok (firstn n s)
  else Panic "slice bounds out of range".

Definition slice_from (s : list byte) (n : nat) : result (list byte) :=
  if (n <=? length s)%nat then Ok (skipn n s)
  else Panic "slice bounds out of range".

Definition slice (s : list byte) (lo hi : nat) : result (list byte) :=
  if ((lo <=? hi) && (hi <=? length s))%nat
  then Ok (firstn (hi - lo) (skipn lo s))
  else Panic "slice bounds out of range".

(** [strconv.Itoa] on a length. *)
Definition decimal (n : nat) : string :=
  NilZero.string_of_uint (Nat.to_uint n).

(** The dynamic type printed by the verb [%T]. *)
Definition typeName (v : any) : string :=
  match v with
  | int _ => "int"
  | str _ => "string"
  | bytes _ => "[]uint8"
  | array b =>
      "[" ++ decimal (length b) ++ "]uint8"
  | bigInt _ => "*big.Int"
  | err _ => "*fmt.wrapError"
  | task _ _ _ => "*performer.TaskRequest"
  end.

(** zap log records: [Logw] for the structured calls ([Infow], [Errorw])
    and [Logf] for the formatted ones ([Infof], [Errorf], [Error]). *)
Inductive level : Type := Info | Error.

Inductive entry : Type :=
| Logw (lvl : level) (msg : string) (fields : list (string * any))
| Logf (lvl : level) (format : string) (args : list any).

(** A method body: the log it writes and how it ends. *)
Definition M (A : Type) : Type := list entry * result A.

Definition ret {A} (a : A) : M A := ([], Ok a).
Definition fail {A} (e : error) : M A := ([], Err e).
Definition log (e : entry) : M unit := ([e], Ok tt).
Definition lift {A} (r : result A) : M A := ([], r).

Definition bind {A B} (m : M A) (k : A -> M B) : M B :=
  match m with
  | (l, Ok a) => let '(l', r) := k a in (l ++ l', r)
  | (l, Err e) => (l, Err e)
  | (l, Panic msg) => (l, Panic msg)
  end.

(** [v, err := f(...); if err != nil { onErr } ...] *)
Definition call {A B} (r : result A) (onErr : error -> M B) (k : A -> M B)
  : M B :=
  match r with
  | Ok a => k a
  | Err e => onErr e
  | Panic msg => ([], Panic msg)
  end.

(** [v, _ := f(...)]: the error is dropped and [v] is the zero slice. *)
Definition ignoreErr (r : result (list byte)) : result (list byte) :=
  match r with
  | Ok b => Ok b
  | Err _ => Ok []
  | Panic msg => Panic msg
  end.

(** Sequencing of two fallible library calls. *)
Definition andThen {A B} (r : result A) (k : A -> result B) : result B :=
  match r with
  | Ok a => k a
  | Err e => Err e
  | Panic msg => Panic msg
  end.

Definition len (s : list byte) : any := int (Z.of_nat (length s)).

Definition panics {A} (r : result A) : bool :=
  match r with
  | Panic _ => true
  | _ => false
  end.

Definition logs {A} (m : M A) : list entry := fst m.
Definition outcome {A} (m : M A) : result A := snd m.

End Go.

Import Go.

Declare Scope go_scope.
Delimit Scope go_scope with go.
Notation "'let*' x ':=' m 'in' k" := (Go.bind m (fun x => k))
  (at level 10, x binder, m at level 100, k at level 200) : go_scope.
Local Open Scope go_scope.
Local Open Scope string_scope.
Local Open Scope nat_scope.

(** ** go-ethereum accounts/abi, static fragment

    The argument types that the repository's interface descriptions declare:
    the fixed byte arrays [bytesN] and [uint256]. The JSON text of an
    interface description is represented by its decoded function entries. *)

Module Abi.

Inductive Type_ : Type :=
| FixedBytesTy (Size : nat)
| Uint256Ty.

(** [Type.String]: the canonical type name used in signatures. *)
Definition String (t : Type_) : string :=
  match t with
  | FixedBytesTy n => "bytes" ++ decimal n
  | Uint256Ty => "uint256"
  end.

(** [Type.GetType] and its [Kind], as printed. *)
Definition GetType (t : Type_) : string :=
  match t with
  | FixedBytesTy n => "[" ++ decimal n ++ "]uint8"
  | Uint256Ty => "*big.Int"
  end.

Definition KindOfType (t : Type_) : string :=
  match t with
  | FixedBytesTy _ => "array"
  | Uint256Ty => "ptr"
  end.

(** The [Kind] of a value once [indirect] has followed its pointers (a
    [*big.Int] is kept as a pointer). *)
Definition Kind (v : any) : string :=
  match v with
  | int _ => "int"
  | str _ => "string"
  | bytes _ => "slice"
  | array _ => "array"
  | bigInt _ => "ptr"
  | err _ | task _ _ _ => "struct"
  end.

Record Argument : Type := {
  ArgName : string;
  ArgType : Type_ }.

Record Method : Type := {
  Name : string;
  RawName : string;
  Inputs : list Argument;
  Sig : string;
  ID : list byte }.

Record ABI : Type := { Methods : gmap string Method }.

(** One function entry of the JSON description. *)
Record Field : Type := {
  FieldName : string;
  FieldInputs : list Argument }.

(** [NewType] on the types of this fragment: [bytesN] is a fixed-size
    type for N from 1 to 32 and is refused above 32. The library reads
    [bytes0] as the dynamic type [bytes], which the fragment does not
    have; it is refused here, so that no result below is about it. *)
Definition NewType (t : Type_) : result Type_ :=
  match t with
  | FixedBytesTy n =>
      if (1 <=? n) && (n <=? 32) then Ok t
      else Err (Errorf "unsupported arg type: %s" [str (String t)])
  | Uint256Ty => Ok t
  end.

(** [NewMethod] for a function: the signature is the raw name followed by
    the comma-joined type names in parentheses, the ID its first four
    Keccak-256 bytes. *)
Definition NewMethod (name rawName : string) (inputs : list Argument)
  : Method :=
  let types := map (fun input => String (ArgType input)) inputs in
  let sig := rawName ++ "(" ++ String.concat "," types ++ ")" in
  let id := firstn 4 (Keccak.Keccak256 (Bytes.of_string sig)) in
  {| Name := name; RawName := rawName; Inputs := inputs;
     Sig := sig; ID := id |}.

(** [ResolveNameConflict]: an overloaded name gets the first free numeric
    suffix. [fuel] is the number of names in use, which bounds the
    search. *)
Fixpoint resolveLoop (fuel : nat) (rawName : string)
    (used : string -> bool) (idx : nat) : string :=
  let name := rawName ++ decimal idx in
  match fuel with
  | O => name
  | S fuel' =>
      if used name then resolveLoop fuel' rawName used (S idx) else name
  end.

Definition ResolveNameConflict (fuel : nat) (rawName : string)
    (used : string -> bool) : string :=
  if used rawName then resolveLoop fuel rawName used 0 else rawName.

Fixpoint unmarshalInputs (inputs : list Argument) : result unit :=
  match inputs with
  | [] => Ok tt
  | arg :: rest =>
      andThen (NewType (ArgType arg)) (fun _ => unmarshalInputs rest)
  end.

Fixpoint unmarshalFields (fields : list Field) : result unit :=
  match fields with
  | [] => Ok tt
  | field :: rest =>
      andThen (unmarshalInputs (FieldInputs field))
              (fun _ => unmarshalFields rest)
  end.

Definition addMethod (methods : gmap string Method) (field : Field)
  : gmap string Method :=
  let name :=
    ResolveNameConflict (size methods) (FieldName field)
      (fun s => bool_decide (is_Some (methods !! s))) in
  <[name := NewMethod name (FieldName field) (FieldInputs field)]> methods.

(** [abi.JSON]: decode the entries, then register each function. *)
Definition JSON (fields : list Field) : result ABI :=
  andThen (unmarshalFields fields) (fun _ =>
    Ok {| Methods := fold_left addMethod fields ∅ |}).

(** *** Packing *)

Definition RightPadBytes (slice : list byte) (l : nat) : list byte :=
  if l <=? length slice then slice
  else (slice ++ repeat x00 (l - length slice))%list.

Definition U256Bytes (z : Z) : list byte :=
  Bytes.be_of_Z 32 (z mod 2 ^ 256)%Z.

Definition typeErr (expected got : string) : error :=
  Errorf "abi: cannot use %v as type %v as argument" [str got; str expected].

Definition typeCheck (t : Type_) (value : any) : result unit :=
  if negb (String.eqb (KindOfType t) (Kind value)) then
    Err (typeErr (KindOfType t) (Kind value))
  else
    match t, value with
    | FixedBytesTy n, array b =>
        if negb (n =? length b) then Err (typeErr (GetType t) (typeName value))
        else Ok tt
    | _, _ => Ok tt
    end.

Definition errInvalidSign : error :=
  Errorf "abi: negatively-signed value cannot be packed into uint parameter"
    [].

(** [packElement]; a negative number is not packed into an unsigned type.
    [Type.pack] calls it only on a value that passed [typeCheck], so the
    last two cases are not reached. *)
Definition packElement (t : Type_) (value : any) : result (list byte) :=
  match t, value with
  | FixedBytesTy _, array b => Ok (RightPadBytes b 32)
  | Uint256Ty, bigInt z =>
      if (z <? 0)%Z then Err errInvalidSign else Ok (U256Bytes z)
  | Uint256Ty, _ => Panic "interface conversion: not a *big.Int"
  | FixedBytesTy _, _ => Panic "reflect: call of Bytes on a non-slice value"
  end.

(** [Type.pack] *)
Definition pack (t : Type_) (value : any) : result (list byte) :=
  andThen (typeCheck t value) (fun _ => packElement t value).

Fixpoint packAll (abiArgs : list Argument) (args : list any)
  : result (list byte) :=
  match abiArgs, args with
  | input :: abiArgs', a :: args' =>
      andThen (pack (ArgType input) a) (fun packed =>
      andThen (packAll abiArgs' args') (fun ret => Ok (packed ++ ret)%list))
  | _, _ => Ok []
  end.

(** [Arguments.Pack] *)
Definition Pack (arguments : list Argument) (args : list any)
  : result (list byte) :=
  if negb (length args =? length arguments) then
    Err (Errorf "argument count mismatch: got %d for %d"
           [int (Z.of_nat (length args)); int (Z.of_nat (length arguments))])
  else packAll arguments args.

(** *** Unpacking *)

Definition ReadFixedBytes (t : Type_) (word : list byte) : result any :=
  match t with
  | FixedBytesTy n => andThen (slice word 0 n) (fun b => Ok (array b))
  | _ => Err (Errorf "abi: invalid type in call to make fixed byte array" [])
  end.

Definition ReadInteger (word : list byte) : result any :=
  Ok (bigInt (Bytes.be_to_Z word)).

Definition toGoType (index : nat) (t : Type_) (output : list byte)
  : result any :=
  if length output <? index + 32 then
    Err (Errorf
           "abi: cannot marshal in to go type: length insufficient %d require %d"
           [len output; int (Z.of_nat (index + 32))])
  else
    andThen (slice output index (index + 32)) (fun returnOutput =>
      match t with
      | FixedBytesTy _ => ReadFixedBytes t returnOutput
      | Uint256Ty => ReadInteger returnOutput
      end).

Fixpoint unpackFrom (index : nat) (arguments : list Argument)
    (data : list byte) : result (list any) :=
  match arguments with
  | [] => Ok []
  | arg :: rest =>
      andThen (toGoType (index * 32) (ArgType arg) data) (fun v =>
      andThen (unpackFrom (S index) rest data) (fun retval =>
        Ok (v :: retval)))
  end.

Definition UnpackValues (arguments : list Argument) (data : list byte)
  : result (list any) :=
  unpackFrom 0 arguments data.

(** [Arguments.Unpack] *)
Definition Unpack (arguments : list Argument) (data : list byte)
  : result (list any) :=
  if length data =? 0 then
    if negb (length arguments =? 0) then
      Err (Errorf
             "abi: attempting to unmarshal an empty string while arguments are expected"
             [])
    else Ok []
  else UnpackValues arguments data.

(** [ABI.Pack]. The empty name stands for the constructor, whose
    arguments are packed without an ID; a description made of function
    entries declares no constructor, so it has no inputs. For a method
    the result is the ID followed by the packed arguments. *)
Definition PackMethod (a : ABI) (name : string) (args : list any)
  : result (list byte) :=
  if String.eqb name EmptyString then Pack [] args
  else
    match Methods a !! name with
    | None => Err (Errorf "method '%s' not found" [str name])
    | Some method =>
        andThen (Pack (Inputs method) args) (fun arguments =>
          Ok (ID method ++ arguments)%list)
    end.

End Abi.

(** ** The protocol messages (performerV1) *)

Module TaskRequest.
Record t : Type := mk {
  TaskId : list byte;
  Payload : list byte;
  Metadata : list byte }.
End TaskRequest.

Module TaskResponse.
Record t : Type := mk {
  TaskId : list byte;
  Result : list byte }.
End TaskResponse.

(** [zap.Any("task", t)] *)
Definition anyTask (t : TaskRequest.t) : any :=
  task (TaskRequest.TaskId t) (TaskRequest.Payload t) (TaskRequest.Metadata t).

(** [args[i]] *)
Definition index (args : list any) (i : nat) : result any :=
  match nth_error args i with
  | Some v => Ok v
  | None => Panic "index out of range"
  end.

(** The type assertion [v.([32]byte)] in its comma-ok form. *)
Definition assertArray32 (v : any) : option (list byte) :=
  match v with
  | array b => if length b =? 32 then Some b else None
  | _ => None
  end.

(** ** The configurable local-compute worker

    The performer whose [TaskWorker] is built by [NewTaskWorker] from a
    [TaskWorkerConfig] and keeps the parsed method. The logger is not a
    field of the model: what a method logs is part of its value in [M]. *)

Module Worker.

Import Abi.

Definition dummyABIJSON : list Field :=
  [ {| FieldName := "dummy";
       FieldInputs := [ {| ArgName := "txHash";
                           ArgType := FixedBytesTy 32 |} ] |} ].

Record TaskWorkerConfig : Type := {
  ABIJSON : list Field;
  Method : string }.

Record TaskWorker : Type := {
  abi : ABI;
  method : Abi.Method }.

Definition NewTaskWorker (cfg : TaskWorkerConfig) : result TaskWorker :=
  match Abi.JSON (ABIJSON cfg) with
  | Err e => Err (Errorf "failed to parse ABI: %w" [err e])
  | Panic msg => Panic msg
  | Ok parsedABI =>
      match Methods parsedABI !! Method cfg with
      | None => Err (Errorf "ABI method %q not found" [str (Method cfg)])
      | Some method => Ok {| abi := parsedABI; method := method |}
      end
  end.

Definition equalBytes (a b : list byte) : bool :=
  (length a =? length b)
  && String.eqb (Bytes.to_string a) (Bytes.to_string b).

Definition ValidateTask (tw : TaskWorker) (t : TaskRequest.t) : M unit :=
  let* _ := log (Logw Info "Validating task"
                   [("task_id", bytes (TaskRequest.TaskId t))]) in
  if length (TaskRequest.Payload t) <? 4 then
    fail (Errorf "payload too short to contain method selector" [])
  else
  let* selector := lift (slice_to (TaskRequest.Payload t) 4) in
  if negb (equalBytes selector (ID (method tw))) then
    fail (Errorf "invalid method selector" [])
  else
  let* encodedArgs := lift (slice_from (TaskRequest.Payload t) 4) in
  let* expectedArgEncoding :=
    lift (ignoreErr (Pack (Inputs (method tw)) [array (repeat x00 32)])) in
  if negb (length encodedArgs =? length expectedArgEncoding) then
    fail (Errorf "unexpected argument length: got %d, want %d"
            [len encodedArgs; len expectedArgEncoding])
  else
  call (Unpack (Inputs (method tw)) encodedArgs)
    (fun e => fail (Errorf "failed to unpack arguments: %w" [err e]))
    (fun args =>
       if negb (length args =? 1) then
         fail (Errorf "expected 1 argument, got %d"
                 [int (Z.of_nat (length args))])
       else
       let* arg0 := lift (index args 0) in
       match assertArray32 arg0 with
       | None =>
           fail (Errorf "expected argument type [32]byte, got %T" [arg0])
       | Some _ => ret tt
       end).

Definition HandleTask (tw : TaskWorker) (t : TaskRequest.t)
  : M TaskResponse.t :=
  let* _ := log (Logw Info "Handling task"
                   [("task_id", bytes (TaskRequest.TaskId t));
                    ("payload", bytes (TaskRequest.Payload t))]) in
  if length (TaskRequest.Payload t) <? 4 then
    let* _ := log (Logf Error "payload too short" []) in
    fail (Errorf "payload too short" [])
  else
  let* encodedArgs := lift (slice_from (TaskRequest.Payload t) 4) in
  call (Unpack (Inputs (method tw)) encodedArgs)
    (fun e =>
       let* _ := log (Logf Error "failed to unpack: %v" [err e]) in
       fail (Errorf "failed to unpack: %w" [err e]))
    (fun args =>
       if negb (length args =? 1) then
         let* _ := log (Logf Error "unexpected number of arguments: %d"
                          [int (Z.of_nat (length args))]) in
         fail (Errorf "unexpected number of arguments: %d"
                 [int (Z.of_nat (length args))])
       else
       let* arg0 := lift (index args 0) in
       match assertArray32 arg0 with
       | None =>
           let* _ := log (Logf Error "unexpected argument type: %T"
                            [arg0]) in
           fail (Errorf "unexpected argument type: %T" [arg0])
       | Some txHash =>
           let* _ := log (Logf Info "Extracted txHash: 0x%x"
                            [array txHash]) in
           let hash := Sha256.Sum256 (TaskRequest.Payload t) in
           let resultStr := Hex.EncodeToString hash in
           let* _ := log (Logw Info "Response to task"
                            [("task_id", bytes (TaskRequest.TaskId t));
                             ("response", str resultStr)]) in
           ret {| TaskResponse.TaskId := TaskRequest.TaskId t;
                  TaskResponse.Result := Bytes.of_string resultStr |}
       end).

(** The configuration [main] starts the performer with. *)
Definition workerCfg : TaskWorkerConfig :=
  {| ABIJSON := dummyABIJSON; Method := "dummy" |}.

End Worker.

(** [hex.DecodeString]: pairs of digits, left to right; the first bad
    character is reported, an odd length only after every pair was read. *)

Module HexDecode.

Definition InvalidByteError (c : byte) : error :=
  Errorf "encoding/hex: invalid byte: %#U" [int (Bytes.to_Z c)].

Definition ErrLength : error :=
  Errorf "encoding/hex: odd length hex string" [].

Fixpoint Decode (src : list byte) : result (list byte) :=
  match src with
  | [] => Ok []
  | [p] =>
      match Hex.fromHexChar p with
      | None => Err (InvalidByteError p)
      | Some _ => Err ErrLength
      end
  | p :: q :: rest =>
      match Hex.fromHexChar p, Hex.fromHexChar q with
      | None, _ => Err (InvalidByteError p)
      | Some _, None => Err (InvalidByteError q)
      | Some a, Some b =>
          andThen (Decode rest) (fun dst =>
            Ok (Bytes.of_Z (Z.lor (Z.shiftl a 4) b) :: dst))
      end
  end.

Definition DecodeString (s : string) : result (list byte) :=
  Decode (Bytes.of_string s).

End HexDecode.

(** ** The local-compute worker that parses its interface on every call *)

Module InlineWorker.

Import Abi.

Definition abiJSON : list Field :=
  [ {| FieldName := "dummy";
       FieldInputs := [ {| ArgName := "txHash";
                           ArgType := FixedBytesTy 32 |} ] |} ].

(** [strings.HasPrefix(s, prefix)] *)
Definition HasPrefix (s prefix : string) : bool := String.prefix prefix s.

Definition ValidateTask (t : TaskRequest.t) : M unit :=
  let* _ := log (Logw Info "Validating task" [("task", anyTask t)]) in
  call (Abi.JSON abiJSON)
    (fun e => fail (Errorf "failed to parse ABI: %w" [err e]))
    (fun parsedABI =>
  match Methods parsedABI !! "dummy" with
  | None => fail (Errorf "ABI method 'dummy' not found" [])
  | Some method =>
  let expectedSelector := ID method in
  let* bad :=
    if length (TaskRequest.Payload t) <? 4 then ret true
    else
      let* selector := lift (slice_to (TaskRequest.Payload t) 4) in
      ret (negb (HasPrefix (Hex.EncodeToString selector)
                           (Hex.EncodeToString expectedSelector))) in
  if bad then fail (Errorf "invalid method selector" [])
  else
  let* encodedArgs := lift (slice_from (TaskRequest.Payload t) 4) in
  let dummyInput := array (repeat x00 32) in
  let* expectedArgEncoding :=
    lift (ignoreErr (Pack (Inputs method) [dummyInput])) in
  if negb (length encodedArgs =? length expectedArgEncoding) then
    fail (Errorf "unexpected argument length: got %d, want %d"
            [len encodedArgs; len expectedArgEncoding])
  else
  call (Unpack (Inputs method) encodedArgs)
    (fun e => fail (Errorf "failed to unpack arguments: %w" [err e]))
    (fun args =>
       if negb (length args =? 1) then
         fail (Errorf "expected 1 argument, got %d"
                 [int (Z.of_nat (length args))])
       else
       let* arg0 := lift (index args 0) in
       match assertArray32 arg0 with
       | None =>
           fail (Errorf "expected argument type [32]byte, got %T" [arg0])
       | Some _ => ret tt
       end)
  end).

Definition HandleTask (t : TaskRequest.t) : M TaskResponse.t :=
  let* _ := log (Logw Info "Handling task"
                   [("task_id", bytes (TaskRequest.TaskId t));
                    ("payload", bytes (TaskRequest.Payload t))]) in
  call (Abi.JSON abiJSON)
    (fun e =>
       let* _ := log (Logf Error "failed to parse ABI: %v" [err e]) in
       fail (Errorf "failed to parse ABI: %w" [err e]))
    (fun parsedABI =>
  match Methods parsedABI !! "dummy" with
  | None =>
      let* _ := log (Logf Error "ABI method 'dummy' not found" []) in
      fail (Errorf "ABI method 'dummy' not found" [])
  | Some method =>
  if length (TaskRequest.Payload t) <? 4 then
    let* _ := log (Logf Error "payload too short" []) in
    fail (Errorf "payload too short" [])
  else
  let* encodedArgs := lift (slice_from (TaskRequest.Payload t) 4) in
  call (Unpack (Inputs method) encodedArgs)
    (fun e =>
       let* _ := log (Logf Error "failed to unpack: %v" [err e]) in
       fail (Errorf "failed to unpack: %w" [err e]))
    (fun args =>
       if negb (length args =? 1) then
         let* _ := log (Logf Error "unexpected number of arguments: %d"
                          [int (Z.of_nat (length args))]) in
         fail (Errorf "unexpected number of arguments: %d"
                 [int (Z.of_nat (length args))])
       else
       let* arg0 := lift (index args 0) in
       match assertArray32 arg0 with
       | None =>
           let* _ := log (Logf Error "unexpected argument type: %T"
                            [arg0]) in
           fail (Errorf "unexpected argument type: %T" [arg0])
       | Some txHash =>
           let* _ := log (Logf Info "Extracted txHash: 0x%x"
                            [array txHash]) in
           let hash := Sha256.Sum256 (TaskRequest.Payload t) in
           let resultStr := Hex.EncodeToString hash in
           let* _ := log (Logw Info "Response to task"
                            [("task_id", bytes (TaskRequest.TaskId t));
                             ("response", str resultStr)]) in
           ret {| TaskResponse.TaskId := TaskRequest.TaskId t;
                  TaskResponse.Result := Bytes.of_string resultStr |}
       end)
  end).

End InlineWorker.

(** ** The worker of cmd/main.go: the payload is hexadecimal text *)

Module HexWorker.

Import Abi.

Definition abiJSON : list Field :=
  [ {| FieldName := "dummy";
       FieldInputs := [ {| ArgName := ""; ArgType := FixedBytesTy 32 |} ] |} ].

Definition ValidateTask (t : TaskRequest.t) : M unit :=
  let* _ := log (Logw Info "Validating task" [("task", anyTask t)]) in
  ret tt.

Definition HandleTask (t : TaskRequest.t) : M TaskResponse.t :=
  let* _ := log (Logw Info "Handling task"
                   [("task_id", bytes (TaskRequest.TaskId t));
                    ("payload",
                     str (Bytes.to_string (TaskRequest.Payload t)))]) in
  call (Abi.JSON abiJSON)
    (fun e =>
       let* _ := log (Logf Error "failed to parse ABI: %v" [err e]) in
       fail (Errorf "failed to parse ABI: %w" [err e]))
    (fun parsedABI =>
  let payloadStr := Bytes.to_string (TaskRequest.Payload t) in
  call (HexDecode.DecodeString payloadStr)
    (fun e =>
       let* _ := log (Logf Error "invalid hex string: %v" [err e]) in
       fail (Errorf "invalid hex string: %w" [err e]))
    (fun payload =>
  match Methods parsedABI !! "dummy" with
  | None =>
      let* _ := log (Logf Error "ABI method 'dummy' not found" []) in
      fail (Errorf "ABI method 'dummy' not found" [])
  | Some method =>
  let* encodedArgs := lift (slice_from payload 4) in
  call (Unpack (Inputs method) encodedArgs)
    (fun e =>
       let* _ := log (Logf Error "failed to unpack: %v" [err e]) in
       fail (Errorf "failed to unpack: %w" [err e]))
    (fun args =>
       if negb (length args =? 1) then
         let* _ := log (Logf Error "unexpected number of arguments: %d"
                          [int (Z.of_nat (length args))]) in
         fail (Errorf "unexpected number of arguments: %d"
                 [int (Z.of_nat (length args))])
       else
       let* arg0 := lift (index args 0) in
       match assertArray32 arg0 with
       | None =>
           let* _ := log (Logf Error "unexpected argument type: %T"
                            [arg0]) in
           fail (Errorf "unexpected argument type: %T" [arg0])
       | Some txHash =>
           let hash := Sha256.Sum256 txHash in
           let resultStr := Hex.EncodeToString hash in
           ret {| TaskResponse.TaskId := TaskRequest.TaskId t;
                  TaskResponse.Result := Bytes.of_string resultStr |}
       end)
  end)).

End HexWorker.

(** ** encoding/json, as far as the request body needs it

    Numbers, strings, arrays and string-keyed maps. A map is written with
    its keys in increasing order. The strings marshalled by the worker are
    made of letters, digits, [.] and [_], none of which is escaped. *)

Module Json.

Inductive value : Type :=
| Number (n : Z)
| Str (s : string)
| Array (elems : list value)
| Object (members : list (string * value)).

Definition dquote : string := Bytes.to_string [x22].

Definition quote (s : string) : string := dquote ++ s ++ dquote.

Fixpoint insertKey (kv : string * string) (l : list (string * string))
  : list (string * string) :=
  match l with
  | [] => [kv]
  | kv' :: rest =>
      if String.leb (fst kv) (fst kv') then kv :: l
      else kv' :: insertKey kv rest
  end.

Definition sortKeys (l : list (string * string)) : list (string * string) :=
  fold_right insertKey [] l.

Fixpoint Marshal (v : value) : string :=
  match v with
  | Number n => NilZero.string_of_int (Z.to_int n)
  | Str s => quote s
  | Array elems => "[" ++ String.concat "," (map Marshal elems) ++ "]"
  | Object members =>
      "{" ++ String.concat ","
               (map (fun kv => quote (fst kv) ++ ":" ++ snd kv)
                    (sortKeys (map (fun kv => (fst kv, Marshal (snd kv)))
                                   members)))
          ++ "}"
  end.

End Json.

(** ** The remote-forward worker *)

Module ForwardWorker.

Import Abi.

Record Config : Type := { RPCServerURL : string }.

Record TaskWorker : Type := { config : Config }.

Definition NewTaskWorker (config : Config) : TaskWorker :=
  {| config := config |}.

(** An HTTP response: the status code and what [io.ReadAll] obtains from
    the body. *)
Record Response : Type := {
  StatusCode : Z;
  Body : result (list byte) }.

Definition jsonRPCVersion : string := "2.0".
Definition jsonContentType : string := "application/json".
Definition jsonRPCMethodName : string := "core_issuePaymentCert".
Definition expectedArgCount : nat := 1.
Definition expectedArgTypeSize : nat := 32.
Definition methodSelectorLength : nat := 4.

Definition contractABI : list Field :=
  [ {| FieldName := "core_issuePaymentCert";
       FieldInputs := [ {| ArgName := "txHash";
                           ArgType := FixedBytesTy 32 |} ] |} ].

Definition getParsedABI (tw : TaskWorker) : result ABI :=
  Abi.JSON contractABI.

Definition ValidateTask (tw : TaskWorker) (t : TaskRequest.t) : M unit :=
  let* _ := log (Logw Info "Validating task" [("task", anyTask t)]) in
  call (getParsedABI tw)
    (fun e =>
       let* _ := log (Logw Error "Failed to parse ABI" [("error", err e)]) in
       fail (Errorf "failed to parse ABI: %w" [err e]))
    (fun parsedABI =>
  match Methods parsedABI !! "dummy" with
  | None => fail (Errorf "ABI method 'dummy' not found" [])
  | Some method =>
  if length (TaskRequest.Payload t) <? methodSelectorLength then
    let* _ := log (Logw Error "Payload too short"
                     [("min_required", int (Z.of_nat methodSelectorLength));
                      ("actual", len (TaskRequest.Payload t))]) in
    fail (Errorf "payload too short: expected at least %d bytes"
            [int (Z.of_nat methodSelectorLength)])
  else
  let* encodedArgs :=
    lift (slice_from (TaskRequest.Payload t) methodSelectorLength) in
  call (Unpack (Inputs method) encodedArgs)
    (fun e =>
       let* _ := log (Logw Error "Failed to unpack method arguments"
                        [("error", err e)]) in
       fail (Errorf "failed to unpack method arguments: %w" [err e]))
    (fun args =>
       if negb (length args =? expectedArgCount) then
         let* _ := log (Logw Error "Unexpected number of arguments"
                          [("expected", int (Z.of_nat expectedArgCount));
                           ("actual", int (Z.of_nat (length args)))]) in
         fail (Errorf "unexpected number of arguments: expected %d, got %d"
                 [int (Z.of_nat expectedArgCount);
                  int (Z.of_nat (length args))])
       else ret tt)
  end).

Section Endpoint.

(** [http.Post(url, contentType, body)] against the outside world. *)
Variable Post : string -> string -> list byte -> result Response.

Definition HandleTask (tw : TaskWorker) (t : TaskRequest.t)
  : M TaskResponse.t :=
  let* _ := log (Logw Info "Handling task"
                   [("task_id", bytes (TaskRequest.TaskId t));
                    ("payload_length", len (TaskRequest.Payload t))]) in
  call (getParsedABI tw)
    (fun e =>
       let* _ := log (Logw Error "Failed to parse ABI"
                        [("error", err e)]) in
       fail (Errorf "failed to parse ABI: %w" [err e]))
    (fun parsedABI =>
  match Methods parsedABI !! jsonRPCMethodName with
  | None =>
      let* _ := log (Logw Error "ABI method not found"
                       [("method", str jsonRPCMethodName)]) in
      fail (Errorf "ABI method '%s' not found" [str jsonRPCMethodName])
  | Some method =>
  if length (TaskRequest.Payload t) <? methodSelectorLength then
    let* _ := log (Logw Error "Payload too short"
                     [("min_required",
                       int (Z.of_nat methodSelectorLength));
                      ("actual", len (TaskRequest.Payload t))]) in
    fail (Errorf "payload too short: expected at least %d bytes"
            [int (Z.of_nat methodSelectorLength)])
  else
  let* encodedArgs :=
    lift (slice_from (TaskRequest.Payload t) methodSelectorLength) in
  call (Unpack (Inputs method) encodedArgs)
    (fun e =>
       let* _ := log (Logw Error "Failed to unpack method arguments"
                        [("error", err e)]) in
       fail (Errorf "failed to unpack method arguments: %w" [err e]))
    (fun args =>
  if negb (length args =? expectedArgCount) then
    let* _ := log (Logw Error "Unexpected number of arguments"
                     [("expected", int (Z.of_nat expectedArgCount));
                      ("actual", int (Z.of_nat (length args)))]) in
    fail (Errorf "unexpected number of arguments: expected %d, got %d"
            [int (Z.of_nat expectedArgCount);
             int (Z.of_nat (length args))])
  else
  let* txHashArg := lift (index args 0) in
  match assertArray32 txHashArg with
  | None =>
      let* _ := log (Logw Error "Invalid argument type for txHash"
                       [("expected",
                         str ("[" ++ decimal expectedArgTypeSize
                                  ++ "]byte"));
                        ("actual", str (typeName txHashArg))]) in
      fail (Errorf "unexpected argument type: expected [%d]byte, got %T"
              [int (Z.of_nat expectedArgTypeSize); txHashArg])
  | Some txHash =>
      let jsonPayload :=
        Json.Object
          [ ("jsonrpc", Json.Str jsonRPCVersion);
            ("method", Json.Str jsonRPCMethodName);
            ("params",
             Json.Array [Json.Str ("0x" ++ Hex.EncodeToString txHash)]);
            ("id", Json.Number 1) ] in
      let jsonData := Bytes.of_string (Json.Marshal jsonPayload) in
      call (Post (RPCServerURL (config tw)) jsonContentType jsonData)
        (fun e =>
           let* _ := log (Logw Error "HTTP request failed"
                            [("url", str (RPCServerURL (config tw)));
                             ("error", err e)]) in
           fail (Errorf "failed to send POST request: %w" [err e]))
        (fun resp =>
      call (Body resp)
        (fun e =>
           let* _ := log (Logw Error "Failed to read response body"
                            [("error", err e)]) in
           fail (Errorf "failed to read response body: %w" [err e]))
        (fun body =>
           let* _ := log (Logw Info "Received response from RPC server"
                            [("status_code", int (StatusCode resp));
                             ("body", str (Bytes.to_string body))]) in
           ret {| TaskResponse.TaskId := TaskRequest.TaskId t;
                  TaskResponse.Result := body |}))
  end)
  end).

End Endpoint.

End ForwardWorker.

(** ** Names used in the statements

    The errors of [Worker.ValidateTask], under the names of the error
    taxonomy. *)

Definition ErrShortPayload : error :=
  Errorf "payload too short to contain method selector" [].

Definition ErrSelectorMismatch : error :=
  Errorf "invalid method selector" [].

Definition ErrLengthMismatch (got want : nat) : error :=
  Errorf "unexpected argument length: got %d, want %d"
    [int (Z.of_nat got); int (Z.of_nat want)].

(** The errors of the remote call in [ForwardWorker.HandleTask]. *)

Definition ErrRemoteUnavailable (cause : error) : error :=
  Errorf "failed to send POST request: %w" [err cause].

Definition ErrRemoteResponse (cause : error) : error :=
  Errorf "failed to read response body: %w" [err cause].

(** The interface [dummy(bytes32)] and the worker [main] builds from it. *)

Definition bytes32Arg (name : string) : Abi.Argument :=
  {| Abi.ArgName := name; Abi.ArgType := Abi.FixedBytesTy 32 |}.

Definition dummyInputs : list Abi.Argument := [bytes32Arg "txHash"].

Definition dummyMethod : Abi.Method :=
  Abi.NewMethod "dummy" "dummy" dummyInputs.

Definition dummyWorker : Worker.TaskWorker :=
  {| Worker.abi := {| Abi.Methods := {[ "dummy" := dummyMethod ]} |};
     Worker.method := dummyMethod |}.

Definition dummySelector : list byte := [xfb; x83; x8c; xc0].

(** The method of cmd/main.go (its argument is unnamed) and the method of
    the remote-forward worker. *)

Definition hexMethod : Abi.Method :=
  Abi.NewMethod "dummy" "dummy" [bytes32Arg ""].

Definition certMethod : Abi.Method :=
  Abi.NewMethod "core_issuePaymentCert" "core_issuePaymentCert"
    [bytes32Arg "txHash"].

(** The JSON-RPC request body built from a decoded hash. *)

Definition rpcRequest (txHash : list byte) : list byte :=
  Bytes.of_string
    (Json.Marshal
       (Json.Object
          [ ("jsonrpc", Json.Str ForwardWorker.jsonRPCVersion);
            ("method", Json.Str ForwardWorker.jsonRPCMethodName);
            ("params",
             Json.Array [Json.Str ("0x" ++ Hex.EncodeToString txHash)]);
            ("id", Json.Number 1) ])).

(** The argument types [abi.NewType] accepts. *)

Definition validType (t : Abi.Type_) : Prop :=
  match t with
  | Abi.FixedBytesTy n => 1 <= n <= 32
  | Abi.Uint256Ty => True
  end.

Definition validInputs (inputs : list Abi.Argument) : Prop :=
  Forall (fun arg => validType (Abi.ArgType arg)) inputs.

(** Requests and an endpoint taken from the repository's tests. *)

Definition testValue : list byte :=
  concat (repeat [x12; x34; x56; x78; x90; xab; xcd; xef] 4).

Definition otherValue : list byte :=
  (concat (repeat [xab; xcd; xef] 10) ++ [xab; xcd])%list.

Definition testRequest : TaskRequest.t :=
  TaskRequest.mk (Bytes.of_string "test-task-id")
    (dummySelector ++ testValue) (Bytes.of_string "test-metadata").

Definition shortRequest : TaskRequest.t :=
  TaskRequest.mk (Bytes.of_string "short-task") [x01; x02; x03] [].

Definition wrongSelectorRequest : TaskRequest.t :=
  TaskRequest.mk (Bytes.of_string "wrong-selector")
    ([x01; x02; x03; x04] ++ testValue) [].

Definition extraArgRequest : TaskRequest.t :=
  TaskRequest.mk (Bytes.of_string "extra-arg-task")
    (dummySelector ++ testValue ++ otherValue) [].

(** The configurations of the tests with a [uint256] argument and with two
    [bytes32] arguments. *)

Definition uint256Cfg : Worker.TaskWorkerConfig :=
  {| Worker.ABIJSON :=
       [ {| Abi.FieldName := "dummy";
            Abi.FieldInputs := [ {| Abi.ArgName := "";
                                    Abi.ArgType := Abi.Uint256Ty |} ] |} ];
     Worker.Method := "dummy" |}.

Definition twoArgCfg : Worker.TaskWorkerConfig :=
  {| Worker.ABIJSON :=
       [ {| Abi.FieldName := "dummy";
            Abi.FieldInputs := [ bytes32Arg ""; bytes32Arg "" ] |} ];
     Worker.Method := "dummy" |}.

(** An endpoint that answers every request with the request body. *)

Definition echoPost (url contentType : string) (body : list byte)
  : result ForwardWorker.Response :=
  Ok {| ForwardWorker.StatusCode := 200; ForwardWorker.Body := Ok body |}.

Definition localhost : ForwardWorker.TaskWorker :=
  ForwardWorker.NewTaskWorker
    {| ForwardWorker.RPCServerURL := "http://localhost:3000" |}.

(** ** Names used in the further properties

    The lower-case hexadecimal digits, the Go type a decoded value has,
    the level of a log record, the lookup of an interface entry by name,
    the two errors [Arguments.Unpack] reports on short input, and the text
    of the JSON-RPC request around the hash. *)

Definition lowerHex (b : byte) : bool :=
  existsb (Byte.eqb b) (Bytes.of_string "0123456789abcdef").

Definition hasType (t : Abi.Type_) (v : any) : Prop :=
  match t, v with
  | Abi.FixedBytesTy n, array b => length b = n
  | Abi.Uint256Ty, bigInt _ => True
  | _, _ => False
  end.

Definition entryLevel (e : entry) : level :=
  match e with
  | Logw lvl _ _ => lvl
  | Logf lvl _ _ => lvl
  end.

Definition named (k : string) (field : Abi.Field) : bool :=
  String.eqb (Abi.FieldName field) k.

Definition ErrUnpackEmpty : error :=
  Errorf
    "abi: attempting to unmarshal an empty string while arguments are expected"
    [].

Definition ErrUnpackShort (have : nat) (need : nat) : error :=
  Errorf "abi: cannot marshal in to go type: length insufficient %d require %d"
    [int (Z.of_nat have); int (Z.of_nat need)].

Definition requestPrefix : string :=
  "{" ++ Json.quote "id" ++ ":1," ++
  Json.quote "jsonrpc" ++ ":" ++ Json.quote "2.0" ++ "," ++
  Json.quote "method" ++ ":" ++ Json.quote "core_issuePaymentCert" ++ "," ++
  Json.quote "params" ++ ":[" ++ Json.dquote ++ "0x".

Definition requestSuffix : string := Json.dquote ++ "]}".

(** * Properties *)

Arguments Sha256.Sum256 : simpl never.
Arguments Keccak.Keccak256 : simpl never.
Arguments Hex.EncodeToString : simpl never.

(** ** The method body monad *)

Section GoFacts.

Context {A B : Type}.

Lemma outcome_bind (m : M A) (k : A -> M B) :
  outcome (Go.bind m k) =
  match outcome m with
  | Ok a => outcome (k a)
  | Err e => Err e
  | Panic msg => Panic msg
  end.
Proof.
  destruct m as [l [a | e | msg]]; cbn; try reflexivity.
  destruct (k a); reflexivity.
Qed.

Lemma logs_bind (m : M A) (k : A -> M B) :
  logs (Go.bind m k) =
  match outcome m with
  | Ok a => (logs m ++ logs (k a))%list
  | _ => logs m
  end.
Proof.
  destruct m as [l [a | e | msg]]; cbn; try reflexivity.
  destruct (k a); reflexivity.
Qed.

Lemma outcome_call (r : result A) (h : error -> M B) (k : A -> M B) :
  outcome (call r h k) =
  match r with
  | Ok a => outcome (k a)
  | Err e => outcome (h e)
  | Panic msg => Panic msg
  end.
Proof. destruct r; reflexivity. Qed.

Lemma outcome_fail (e : error) : outcome (@fail A e) = Err e.
Proof. reflexivity. Qed.

Lemma outcome_ret (a : A) : outcome (ret a) = Ok a.
Proof. reflexivity. Qed.

Lemma outcome_lift (r : result A) : outcome (lift r) = r.
Proof. reflexivity. Qed.

End GoFacts.

Lemma outcome_log (e : entry) : outcome (log e) = Ok tt.
Proof. reflexivity. Qed.

Lemma outcome_if {A} (b : bool) (m1 m2 : M A) :
  outcome (if b then m1 else m2) = if b then outcome m1 else outcome m2.
Proof. destruct b; reflexivity. Qed.

Lemma outcome_match_option {A C} (o : option C) (f : C -> M A) (m : M A) :
  outcome (match o with Some c => f c | None => m end) =
  match o with Some c => outcome (f c) | None => outcome m end.
Proof. destruct o; reflexivity. Qed.

Ltac go_outcome :=
  repeat (rewrite ?outcome_bind, ?outcome_call, ?outcome_if,
            ?outcome_match_option, ?outcome_fail, ?outcome_ret,
            ?outcome_lift, ?outcome_log).

Ltac go_logs :=
  repeat (rewrite logs_bind; cbn [outcome logs lift log fail ret fst snd app]).

(** Case analysis on a scrutinee that contains no other case analysis. *)
Ltac is_innermost x :=
  lazymatch x with
  | context [match _ with _ => _ end] => fail
  | _ => idtac
  end.

Ltac go_step :=
  match goal with
  | |- context [match ?x with _ => _ end] => is_innermost x; destruct x eqn:?
  end.

Ltac go_cases :=
  unfold logs, outcome, Go.bind, call, lift, fail, ret, log;
  repeat (cbn [fst snd app]; go_step); cbn [fst snd app].

(** ** Slices *)

Lemma slice_to_ok (s : list byte) (n : nat) :
  n <= length s -> slice_to s n = Ok (firstn n s).
Proof.
  intros H. unfold slice_to.
  destruct (Nat.leb_spec n (length s)); [reflexivity | lia].
Qed.

Lemma slice_from_ok (s : list byte) (n : nat) :
  n <= length s -> slice_from s n = Ok (skipn n s).
Proof.
  intros H. unfold slice_from.
  destruct (Nat.leb_spec n (length s)); [reflexivity | lia].
Qed.

Lemma slice_ok (s : list byte) (lo hi : nat) :
  lo <= hi -> hi <= length s ->
  slice s lo hi = Ok (firstn (hi - lo) (skipn lo s)).
Proof.
  intros H1 H2. unfold slice.
  destruct (Nat.leb_spec lo hi); [| lia].
  destruct (Nat.leb_spec hi (length s)); [reflexivity | lia].
Qed.

(** ** encoding/hex *)

Lemma EncodeToString_cons (v : byte) (rest : list byte) :
  Hex.EncodeToString (v :: rest) =
  String (Hex.digit (Z.shiftr (Bytes.to_Z v) 4))
    (String (Hex.digit (Z.land (Bytes.to_Z v) 15)) (Hex.EncodeToString rest)).
Proof. reflexivity. Qed.

Lemma EncodeToString_length (src : list byte) :
  String.length (Hex.EncodeToString src) = 2 * length src.
Proof.
  induction src as [| v rest IH]; [reflexivity |].
  rewrite EncodeToString_cons. cbn [String.length length]. rewrite IH. lia.
Qed.

Lemma hex_digits_of_byte (v : byte) :
  let hi := Z.shiftr (Bytes.to_Z v) 4 in
  let lo := Z.land (Bytes.to_Z v) 15 in
  Hex.fromHexChar (byte_of_ascii (Hex.digit hi)) = Some hi /\
  Hex.fromHexChar (byte_of_ascii (Hex.digit lo)) = Some lo /\
  Bytes.of_Z (Z.lor (Z.shiftl hi 4) lo) = v.
Proof. destruct v; vm_compute; auto. Qed.

(** Decoding inverts encoding. *)
Lemma DecodeString_EncodeToString (src : list byte) :
  HexDecode.DecodeString (Hex.EncodeToString src) = Ok src.
Proof.
  unfold HexDecode.DecodeString.
  induction src as [| v rest IH]; [reflexivity |].
  rewrite EncodeToString_cons.
  destruct (hex_digits_of_byte v) as (Hhi & Hlo & Hv).
  cbn zeta in Hhi, Hlo, Hv.
  change (Bytes.of_string (String ?a (String ?b ?s)))
    with (byte_of_ascii a :: byte_of_ascii b :: Bytes.of_string s).
  cbn [HexDecode.Decode]. rewrite Hhi, Hlo, IH. cbn [andThen].
  rewrite Hv. reflexivity.
Qed.

Lemma EncodeToString_inj (a b : list byte) :
  Hex.EncodeToString a = Hex.EncodeToString b -> a = b.
Proof.
  intros H. apply (f_equal HexDecode.DecodeString) in H.
  rewrite !DecodeString_EncodeToString in H. congruence.
Qed.

Lemma prefix_same_length (a b : string) :
  String.length a = String.length b -> String.prefix a b = true -> a = b.
Proof.
  revert b. induction a as [| c a IH]; intros [| d b]; cbn;
    try discriminate; [reflexivity |].
  intros Hlen. destruct (ascii_dec c d) as [-> |]; [| discriminate].
  intros H. f_equal. apply IH; [lia | assumption].
Qed.

Lemma prefix_refl (s : string) : String.prefix s s = true.
Proof.
  induction s as [| c s IH]; cbn; [reflexivity |].
  destruct (ascii_dec c c); [assumption | congruence].
Qed.

Lemma HasPrefix_hex (a b : list byte) :
  length a = length b ->
  InlineWorker.HasPrefix (Hex.EncodeToString a) (Hex.EncodeToString b) = true
  <-> a = b.
Proof.
  intros Hlen. unfold InlineWorker.HasPrefix. split.
  - intros H. symmetry. apply EncodeToString_inj, prefix_same_length;
      [rewrite !EncodeToString_length; lia | assumption].
  - intros ->. apply prefix_refl.
Qed.

Lemma equalBytes_eq (a b : list byte) :
  Worker.equalBytes a b = true <-> a = b.
Proof.
  unfold Worker.equalBytes. split.
  - intros H. apply andb_prop in H as [_ H].
    apply String.eqb_eq in H.
    apply (f_equal list_byte_of_string) in H.
    unfold Bytes.to_string in H.
    now rewrite !list_byte_of_string_of_list_byte in H.
  - intros ->. rewrite Nat.eqb_refl, String.eqb_refl. reflexivity.
Qed.

(** ** Packing and unpacking one [bytes32] argument *)

Lemma Unpack_bytes32_ok (name : string) (data : list byte) :
  32 <= length data ->
  Abi.Unpack [bytes32Arg name] data = Ok [array (firstn 32 data)].
Proof.
  intros H. unfold Abi.Unpack.
  destruct (Nat.eqb_spec (length data) 0) as [E | _]; [lia |].
  unfold Abi.UnpackValues. cbn [Abi.unpackFrom bytes32Arg Abi.ArgType].
  unfold Abi.toGoType. cbn [Nat.mul Nat.add].
  destruct (Nat.ltb_spec (length data) 32) as [E | _]; [lia |].
  rewrite slice_ok by lia.
  cbn [andThen Abi.ReadFixedBytes Nat.sub]. rewrite drop_0.
  rewrite slice_ok by (rewrite ?length_take; lia).
  cbn [andThen Nat.sub]. rewrite drop_0, take_take.
  reflexivity.
Qed.

Lemma Unpack_bytes32_empty (name : string) (data : list byte) :
  length data = 0 ->
  Abi.Unpack [bytes32Arg name] data =
  Err (Errorf
         "abi: attempting to unmarshal an empty string while arguments are expected"
         []).
Proof.
  intros H. unfold Abi.Unpack. rewrite H. reflexivity.
Qed.

Lemma Unpack_bytes32_short (name : string) (data : list byte) :
  0 < length data < 32 ->
  Abi.Unpack [bytes32Arg name] data =
  Err (Errorf
         "abi: cannot marshal in to go type: length insufficient %d require %d"
         [len data; int 32]).
Proof.
  intros H. unfold Abi.Unpack.
  destruct (Nat.eqb_spec (length data) 0) as [E | _]; [lia |].
  unfold Abi.UnpackValues. cbn [Abi.unpackFrom bytes32Arg Abi.ArgType].
  unfold Abi.toGoType. cbn [Nat.mul Nat.add].
  destruct (Nat.ltb_spec (length data) 32) as [_ | E]; [| lia].
  reflexivity.
Qed.

Lemma Pack_bytes32 (name : string) (v : list byte) :
  length v = 32 -> Abi.Pack [bytes32Arg name] [array v] = Ok v.
Proof.
  intros H. unfold Abi.Pack. cbn [length Nat.eqb negb].
  cbn [Abi.packAll bytes32Arg Abi.ArgType].
  unfold Abi.pack, Abi.typeCheck.
  cbn [Abi.KindOfType Abi.Kind String.eqb Ascii.eqb Bool.eqb negb andb].
  rewrite H. cbn [Nat.eqb negb andThen Abi.packElement].
  unfold Abi.RightPadBytes. rewrite H. cbn [Nat.leb andThen].
  rewrite app_nil_r. reflexivity.
Qed.

(** ** Interfaces accepted by [abi.JSON] never make unpacking panic *)

Lemma NewType_valid (t t' : Abi.Type_) :
  Abi.NewType t = Ok t' -> validType t.
Proof.
  destruct t as [n |]; unfold Abi.NewType, validType; [| trivial].
  destruct (Nat.leb_spec 1 n), (Nat.leb_spec n 32); cbn [andb]; intros Hok;
    try discriminate Hok; lia.
Qed.

Lemma unmarshalInputs_valid (inputs : list Abi.Argument) :
  Abi.unmarshalInputs inputs = Ok tt -> validInputs inputs.
Proof.
  induction inputs as [| arg rest IH]; cbn; intros H; [constructor |].
  destruct (Abi.NewType (Abi.ArgType arg)) eqn:E; cbn in H; try discriminate H.
  constructor; [eapply NewType_valid; eassumption | exact (IH H)].
Qed.

Lemma unmarshalFields_valid (fields : list Abi.Field) :
  Abi.unmarshalFields fields = Ok tt ->
  Forall (fun f => validInputs (Abi.FieldInputs f)) fields.
Proof.
  induction fields as [| f rest IH]; cbn; intros H; [constructor |].
  destruct (Abi.unmarshalInputs (Abi.FieldInputs f)) as [[] | |] eqn:E;
    cbn in H; try discriminate H.
  constructor; [apply unmarshalInputs_valid; assumption | exact (IH H)].
Qed.

Lemma addMethod_valid (fields : list Abi.Field) :
  Forall (fun f => validInputs (Abi.FieldInputs f)) fields ->
  forall methods : gmap string Abi.Method,
    map_Forall (fun _ m => validInputs (Abi.Inputs m)) methods ->
    map_Forall (fun _ m => validInputs (Abi.Inputs m))
      (fold_left Abi.addMethod fields methods).
Proof.
  induction 1 as [| f rest Hf _ IH]; intros methods Hm; cbn; [assumption |].
  apply IH. unfold Abi.addMethod.
  apply map_Forall_insert_2; assumption.
Qed.

Lemma toGoType_no_panic (index : nat) (t : Abi.Type_) (output : list byte) :
  validType t -> panics (Abi.toGoType index t output) = false.
Proof.
  intros Hv. unfold Abi.toGoType.
  destruct (Nat.ltb_spec (length output) (index + 32)) as [| Hlen];
    [reflexivity |].
  rewrite slice_ok by lia. cbn [andThen].
  destruct t as [n |]; [| reflexivity].
  cbn in Hv. cbn [Abi.ReadFixedBytes].
  rewrite slice_ok by (rewrite ?length_take, ?length_drop; lia).
  reflexivity.
Qed.

Lemma unpackFrom_no_panic (arguments : list Abi.Argument) (data : list byte) :
  validInputs arguments ->
  forall index, panics (Abi.unpackFrom index arguments data) = false.
Proof.
  induction 1 as [| arg rest Hv _ IH]; intros index; cbn; [reflexivity |].
  pose proof (toGoType_no_panic (index * 32) _ data Hv) as Ht.
  destruct (Abi.toGoType _ _ _); cbn in *; try congruence.
  specialize (IH (S index)).
  destruct (Abi.unpackFrom _ _ _); cbn in *; congruence.
Qed.

Lemma Unpack_no_panic (arguments : list Abi.Argument) (data : list byte) :
  validInputs arguments -> panics (Abi.Unpack arguments data) = false.
Proof.
  intros Hv. unfold Abi.Unpack.
  destruct (length data =? 0).
  - destruct (negb _); reflexivity.
  - apply unpackFrom_no_panic; assumption.
Qed.

Lemma Pack_array_no_panic (arguments : list Abi.Argument) (v : list byte) :
  panics (Abi.Pack arguments [array v]) = false.
Proof.
  unfold Abi.Pack.
  destruct arguments as [| arg [| arg' rest]]; try reflexivity.
  cbn [length Nat.eqb negb Abi.packAll].
  unfold Abi.pack, Abi.typeCheck.
  destruct (Abi.ArgType arg) as [n |]; cbn; [| reflexivity].
  destruct (n =? length v); reflexivity.
Qed.

(** ** The parsed interfaces *)

(** [main]'s configuration yields the worker for [dummy(bytes32)]. *)
Lemma NewTaskWorker_workerCfg :
  Worker.NewTaskWorker Worker.workerCfg = Ok dummyWorker.
Proof. vm_compute. reflexivity. Qed.

Lemma NewTaskWorker_inv (tw : Worker.TaskWorker) :
  Worker.NewTaskWorker Worker.workerCfg = Ok tw -> tw = dummyWorker.
Proof. rewrite NewTaskWorker_workerCfg. congruence. Qed.

(** Every worker that [NewTaskWorker] builds has accepted argument
    types. *)
Lemma NewTaskWorker_valid (cfg : Worker.TaskWorkerConfig)
    (tw : Worker.TaskWorker) :
  Worker.NewTaskWorker cfg = Ok tw ->
  validInputs (Abi.Inputs (Worker.method tw)).
Proof.
  unfold Worker.NewTaskWorker, Abi.JSON.
  destruct (Abi.unmarshalFields (Worker.ABIJSON cfg)) as [[] | |] eqn:E;
    cbn; try discriminate.
  destruct (_ !! Worker.Method cfg) as [m |] eqn:L; [| discriminate].
  intros H. injection H as <-. cbn.
  pose proof (addMethod_valid _ (unmarshalFields_valid _ E) ∅
                (map_Forall_empty _)) as HF.
  exact (HF _ _ L).
Qed.

Lemma dummyMethod_ID : Abi.ID dummyMethod = dummySelector.
Proof. vm_compute. reflexivity. Qed.

Lemma dummyMethod_Sig : Abi.Sig dummyMethod = "dummy(bytes32)".
Proof. vm_compute. reflexivity. Qed.

Lemma dummySelector_digest :
  firstn 4 (Keccak.Keccak256 (Bytes.of_string "dummy(bytes32)")) = dummySelector.
Proof. vm_compute. reflexivity. Qed.

Lemma JSON_inline :
  Abi.JSON InlineWorker.abiJSON =
  Ok {| Abi.Methods := {[ "dummy" := dummyMethod ]} |}.
Proof. vm_compute. reflexivity. Qed.

Lemma lookup_dummy :
  ({[ "dummy" := dummyMethod ]} : gmap string Abi.Method) !! "dummy" = Some dummyMethod.
Proof. apply lookup_singleton_eq. Qed.

Lemma JSON_hex :
  Abi.JSON HexWorker.abiJSON =
  Ok {| Abi.Methods := {[ "dummy" := hexMethod ]} |}.
Proof. vm_compute. reflexivity. Qed.

Lemma lookup_hex :
  ({[ "dummy" := hexMethod ]} : gmap string Abi.Method) !! "dummy"
  = Some hexMethod.
Proof. apply lookup_singleton_eq. Qed.

Lemma JSON_contract :
  Abi.JSON ForwardWorker.contractABI =
  Ok {| Abi.Methods := {[ "core_issuePaymentCert" := certMethod ]} |}.
Proof. vm_compute. reflexivity. Qed.

Lemma lookup_cert_dummy :
  ({[ "core_issuePaymentCert" := certMethod ]} : gmap string Abi.Method)
    !! "dummy" = None.
Proof. apply lookup_singleton_ne. discriminate. Qed.

Lemma lookup_cert :
  ({[ "core_issuePaymentCert" := certMethod ]} : gmap string Abi.Method)
    !! ForwardWorker.jsonRPCMethodName = Some certMethod.
Proof. apply lookup_singleton_eq. Qed.

(** ** The configurable worker *)

(** What [HandleTask] returns when the method takes one [bytes32]. *)
Lemma Worker_HandleTask_bytes32 (tw : Worker.TaskWorker) (t : TaskRequest.t) name :
  Abi.Inputs (Worker.method tw) = [bytes32Arg name] ->
  outcome (Worker.HandleTask tw t) =
  let payload := TaskRequest.Payload t in
  if length payload <? 4 then Err (Errorf "payload too short" [])
  else if length payload =? 4 then
    Err (Errorf "failed to unpack: %w"
           [err (Errorf
                   "abi: attempting to unmarshal an empty string while arguments are expected"
                   [])])
  else if length payload <? 36 then
    Err (Errorf "failed to unpack: %w"
           [err (Errorf
                   "abi: cannot marshal in to go type: length insufficient %d require %d"
                   [len (skipn 4 payload); int 32])])
  else
    Ok {| TaskResponse.TaskId := TaskRequest.TaskId t;
          TaskResponse.Result :=
            Bytes.of_string (Hex.EncodeToString (Sha256.Sum256 payload)) |}.
Proof.
  intros Hin. unfold Worker.HandleTask. rewrite Hin. go_outcome.
  cbv zeta.
  destruct (Nat.ltb_spec (length (TaskRequest.Payload t)) 4) as [Hs | Hs];
    [reflexivity |].
  rewrite slice_from_ok by lia. go_outcome.
  destruct (Nat.eqb_spec (length (TaskRequest.Payload t)) 4) as [H4 | H4].
  { rewrite Unpack_bytes32_empty by (rewrite length_drop; lia).
    go_outcome. reflexivity. }
  destruct (Nat.ltb_spec (length (TaskRequest.Payload t)) 36) as [H36 | H36].
  { rewrite Unpack_bytes32_short by (rewrite length_drop; lia).
    go_outcome. reflexivity. }
  rewrite Unpack_bytes32_ok by (rewrite length_drop; lia).
  cbn [length Nat.eqb negb]. go_outcome. cbn [index nth_error].
  cbn [assertArray32]. rewrite length_take, length_drop.
  replace (32 `min` (length (TaskRequest.Payload t) - 4)) with 32 by lia.
  cbn [Nat.eqb]. go_outcome. reflexivity.
Qed.

(** What [ValidateTask] returns when the method takes one [bytes32]. *)
Lemma Worker_ValidateTask_bytes32 (tw : Worker.TaskWorker) (t : TaskRequest.t)
    name :
  Abi.Inputs (Worker.method tw) = [bytes32Arg name] ->
  outcome (Worker.ValidateTask tw t) =
  let payload := TaskRequest.Payload t in
  if length payload <? 4 then Err ErrShortPayload
  else if negb (Worker.equalBytes (firstn 4 payload)
                  (Abi.ID (Worker.method tw)))
  then Err ErrSelectorMismatch
  else if negb (length payload - 4 =? 32)
  then Err (ErrLengthMismatch (length payload - 4) 32)
  else Ok tt.
Proof.
  intros Hin. unfold Worker.ValidateTask. rewrite Hin. go_outcome.
  cbv zeta.
  destruct (Nat.ltb_spec (length (TaskRequest.Payload t)) 4) as [Hs | Hs];
    [reflexivity |].
  rewrite slice_to_ok by lia. go_outcome.
  destruct (Worker.equalBytes _ _); cbn [negb]; [| reflexivity].
  rewrite slice_from_ok by lia. go_outcome.
  rewrite Pack_bytes32 by reflexivity. cbn [ignoreErr]. go_outcome.
  rewrite length_drop, repeat_length.
  destruct (Nat.eqb_spec (length (TaskRequest.Payload t) - 4) 32) as [E | E];
    cbn [negb].
  2:{ unfold ErrLengthMismatch, len. rewrite length_drop, repeat_length.
      reflexivity. }
  rewrite Unpack_bytes32_ok by (rewrite length_drop; lia).
  cbn [length Nat.eqb negb]. go_outcome. cbn [index nth_error].
  cbn [assertArray32]. rewrite length_take, length_drop, E.
  reflexivity.
Qed.

Lemma Worker_ValidateTask_logs (tw : Worker.TaskWorker) (t : TaskRequest.t) :
  logs (Worker.ValidateTask tw t) =
  [Logw Info "Validating task" [("task_id", bytes (TaskRequest.TaskId t))]].
Proof.
  unfold Worker.ValidateTask. go_cases; reflexivity.
Qed.

Lemma Worker_HandleTask_logs_ok (tw : Worker.TaskWorker) (t : TaskRequest.t)
    name :
  Abi.Inputs (Worker.method tw) = [bytes32Arg name] ->
  36 <= length (TaskRequest.Payload t) ->
  logs (Worker.HandleTask tw t) =
  [ Logw Info "Handling task"
      [("task_id", bytes (TaskRequest.TaskId t));
       ("payload", bytes (TaskRequest.Payload t))];
    Logf Info "Extracted txHash: 0x%x"
      [array (firstn 32 (skipn 4 (TaskRequest.Payload t)))];
    Logw Info "Response to task"
      [("task_id", bytes (TaskRequest.TaskId t));
       ("response",
        str (Hex.EncodeToString (Sha256.Sum256 (TaskRequest.Payload t))))] ].
Proof.
  intros Hin Hlen. unfold Worker.HandleTask. rewrite Hin. go_logs.
  destruct (Nat.ltb_spec (length (TaskRequest.Payload t)) 4) as [| _];
    [lia |].
  rewrite slice_from_ok by lia. go_logs.
  rewrite Unpack_bytes32_ok by (rewrite length_drop; lia).
  cbn [length Nat.eqb negb call index nth_error]. go_logs.
  cbn [assertArray32].
  rewrite length_take, length_drop.
  replace (32 `min` (length (TaskRequest.Payload t) - 4)) with 32 by lia.
  cbn [Nat.eqb]. go_logs. reflexivity.
Qed.

Lemma Worker_HandleTask_TaskId (tw : Worker.TaskWorker) (t : TaskRequest.t) r :
  outcome (Worker.HandleTask tw t) = Ok r ->
  TaskResponse.TaskId r = TaskRequest.TaskId t.
Proof.
  unfold Worker.HandleTask. go_cases; intros H; try discriminate H.
  all: injection H as <-; reflexivity.
Qed.

Lemma Worker_ValidateTask_no_panic (tw : Worker.TaskWorker)
    (t : TaskRequest.t) :
  validInputs (Abi.Inputs (Worker.method tw)) ->
  panics (outcome (Worker.ValidateTask tw t)) = false.
Proof.
  intros Hv.
  pose proof (Unpack_no_panic _ (skipn 4 (TaskRequest.Payload t)) Hv) as HU.
  pose proof (Pack_array_no_panic (Abi.Inputs (Worker.method tw))
                (repeat x00 32)) as HP.
  unfold Worker.ValidateTask. go_outcome.
  destruct (Nat.ltb_spec (length (TaskRequest.Payload t)) 4) as [| Hlen];
    [reflexivity |].
  rewrite slice_to_ok, slice_from_ok by lia.
  go_outcome. destruct (negb _); [reflexivity |].
  go_outcome.
  destruct (Abi.Pack _ _) as [enc | e | msg]; cbn in HP; try discriminate HP;
    cbn [ignoreErr]; go_outcome.
  all: destruct (negb _); [reflexivity |]; go_outcome.
  all: destruct (Abi.Unpack _ _) as [args | e' | msg]; cbn in HU;
    try discriminate HU; try reflexivity.
  all: destruct args as [| a [| a' args]]; cbn [length Nat.eqb negb];
    go_outcome; try reflexivity.
  all: cbn [index nth_error]; destruct (assertArray32 a); reflexivity.
Qed.

Lemma Worker_HandleTask_no_panic (tw : Worker.TaskWorker)
    (t : TaskRequest.t) :
  validInputs (Abi.Inputs (Worker.method tw)) ->
  panics (outcome (Worker.HandleTask tw t)) = false.
Proof.
  intros Hv.
  pose proof (Unpack_no_panic _ (skipn 4 (TaskRequest.Payload t)) Hv) as HU.
  unfold Worker.HandleTask. go_outcome.
  destruct (Nat.ltb_spec (length (TaskRequest.Payload t)) 4) as [| Hlen];
    [reflexivity |].
  rewrite slice_from_ok by lia. go_outcome.
  destruct (Abi.Unpack _ _) as [args | e' | msg]; cbn in HU;
    try discriminate HU; go_outcome; try reflexivity.
  destruct args as [| a [| a' args]]; cbn [length Nat.eqb negb];
    go_outcome; try reflexivity.
  cbn [index nth_error]; destruct (assertArray32 a); go_outcome; reflexivity.
Qed.

(** ** The worker that parses its interface on every call *)

(** Its [HandleTask] returns what the configurable worker built by [main]
    returns. *)
Lemma Inline_HandleTask_eq (t : TaskRequest.t) :
  outcome (InlineWorker.HandleTask t) =
  outcome (Worker.HandleTask dummyWorker t).
Proof.
  unfold InlineWorker.HandleTask. rewrite JSON_inline.
  cbn [call Abi.Methods]. rewrite lookup_dummy. reflexivity.
Qed.

Lemma Inline_ValidateTask_outcome (t : TaskRequest.t) :
  outcome (InlineWorker.ValidateTask t) =
  let payload := TaskRequest.Payload t in
  if length payload <? 4 then Err ErrSelectorMismatch
  else if negb (InlineWorker.HasPrefix (Hex.EncodeToString (firstn 4 payload))
                  (Hex.EncodeToString dummySelector))
  then Err ErrSelectorMismatch
  else if negb (length payload - 4 =? 32)
  then Err (ErrLengthMismatch (length payload - 4) 32)
  else Ok tt.
Proof.
  unfold InlineWorker.ValidateTask. rewrite JSON_inline. go_outcome.
  cbn [Abi.Methods]. rewrite lookup_dummy. cbv zeta. go_outcome.
  rewrite dummyMethod_ID.
  destruct (Nat.ltb_spec (length (TaskRequest.Payload t)) 4) as [Hs | Hs];
    go_outcome; [reflexivity |].
  rewrite slice_to_ok by lia. go_outcome.
  destruct (InlineWorker.HasPrefix _ _); cbn [negb]; [| reflexivity].
  rewrite slice_from_ok by lia. go_outcome.
  change (Abi.Inputs dummyMethod) with [bytes32Arg "txHash"].
  rewrite Pack_bytes32 by reflexivity. cbn [ignoreErr]. go_outcome.
  rewrite length_drop, repeat_length.
  destruct (Nat.eqb_spec (length (TaskRequest.Payload t) - 4) 32) as [E | E];
    cbn [negb].
  2:{ unfold ErrLengthMismatch, len. rewrite length_drop, repeat_length.
      reflexivity. }
  rewrite Unpack_bytes32_ok by (rewrite length_drop; lia).
  cbn [length Nat.eqb negb]. go_outcome. cbn [index nth_error].
  cbn [assertArray32]. rewrite length_take, length_drop, E.
  reflexivity.
Qed.

Lemma Inline_ValidateTask_logs (t : TaskRequest.t) :
  logs (InlineWorker.ValidateTask t) =
  [Logw Info "Validating task" [("task", anyTask t)]].
Proof.
  unfold InlineWorker.ValidateTask. rewrite JSON_inline.
  cbn [call Abi.Methods]. rewrite lookup_dummy.
  go_cases; reflexivity.
Qed.

Lemma Inline_ValidateTask_no_panic (t : TaskRequest.t) :
  panics (outcome (InlineWorker.ValidateTask t)) = false.
Proof.
  rewrite Inline_ValidateTask_outcome. cbv zeta.
  repeat match goal with
         | |- context [if ?b then _ else _] => destruct b
         end; reflexivity.
Qed.

(** The worker that parses its interface on every call folds the length
    test into the selector test: a short payload gets the selector
    error. *)
Lemma Inline_short_payload (t : TaskRequest.t) :
  length (TaskRequest.Payload t) < 4 ->
  outcome (InlineWorker.ValidateTask t) = Err ErrSelectorMismatch.
Proof.
  intros Hlen. rewrite Inline_ValidateTask_outcome. cbv zeta.
  destruct (Nat.ltb_spec (length (TaskRequest.Payload t)) 4);
    [reflexivity | lia].
Qed.

(** ** The worker of cmd/main.go *)

(** The worker of cmd/main.go reads the payload as hexadecimal text and
    returns the digest of the decoded argument, not of the payload. *)
Lemma HexWorker_hashes_argument (taskId metadata selector value : list byte) :
  length selector = 4 -> length value = 32 ->
  outcome (HexWorker.HandleTask
             (TaskRequest.mk taskId
                (Bytes.of_string (Hex.EncodeToString (selector ++ value)))
                metadata)) =
  Ok {| TaskResponse.TaskId := taskId;
        TaskResponse.Result :=
          Bytes.of_string (Hex.EncodeToString (Sha256.Sum256 value)) |}.
Proof.
  intros Hs Hv. unfold HexWorker.HandleTask. rewrite JSON_hex. go_outcome.
  cbn [TaskRequest.Payload TaskRequest.TaskId]. cbv zeta.
  unfold Bytes.to_string, Bytes.of_string at 1.
  rewrite string_of_list_byte_of_string, DecodeString_EncodeToString.
  go_outcome. cbn [Abi.Methods]. rewrite lookup_hex. go_outcome.
  rewrite slice_from_ok by (rewrite length_app; lia). go_outcome.
  rewrite (drop_app_length' selector value 4 (eq_sym Hs)).
  change (Abi.Inputs hexMethod) with [bytes32Arg ""].
  rewrite Unpack_bytes32_ok by lia.
  cbn [length Nat.eqb negb]. go_outcome.
  cbn [index nth_error assertArray32].
  rewrite take_ge by lia. rewrite Hv. cbn [Nat.eqb]. go_outcome.
  reflexivity.
Qed.

(** It rejects the raw payload of the other workers' tests. *)
Lemma HexWorker_rejects_raw_payload :
  outcome (HexWorker.HandleTask testRequest) =
  Err (Errorf "invalid hex string: %w" [err (HexDecode.InvalidByteError xfb)]).
Proof. vm_compute. reflexivity. Qed.

(** No payload that starts with the selector of [dummy(bytes32)] is
    hexadecimal text: the first byte, 0xfb, is not a digit. *)
Lemma HexWorker_rejects_selector (taskId metadata rest : list byte) :
  outcome (HexWorker.HandleTask
             (TaskRequest.mk taskId (dummySelector ++ rest) metadata)) =
  Err (Errorf "invalid hex string: %w" [err (HexDecode.InvalidByteError xfb)]).
Proof.
  unfold HexWorker.HandleTask. rewrite JSON_hex. go_outcome.
  cbn [TaskRequest.Payload]. cbv zeta.
  unfold HexDecode.DecodeString, Bytes.to_string.
  change (Bytes.of_string (string_of_list_byte (dummySelector ++ rest)))
    with (list_byte_of_string (string_of_list_byte (dummySelector ++ rest))).
  rewrite list_byte_of_string_of_list_byte.
  change (HexDecode.Decode (dummySelector ++ rest))
    with (@Err (list byte) (HexDecode.InvalidByteError xfb)).
  go_outcome. reflexivity.
Qed.

(** Its slice [payload[4:]] is not guarded: two decoded bytes make it
    panic. *)
Lemma HexWorker_short_hex_panics :
  panics (outcome (HexWorker.HandleTask
                     (TaskRequest.mk [] (Bytes.of_string "abcd") []))) = true.
Proof. vm_compute. reflexivity. Qed.


(** ** The remote-forward worker *)

Lemma Forward_ValidateTask_eq (tw : ForwardWorker.TaskWorker)
    (t : TaskRequest.t) :
  ForwardWorker.ValidateTask tw t =
  ([Logw Info "Validating task" [("task", anyTask t)]],
   Err (Errorf "ABI method 'dummy' not found" [])).
Proof.
  unfold ForwardWorker.ValidateTask, ForwardWorker.getParsedABI.
  rewrite JSON_contract. cbn [call Abi.Methods].
  rewrite lookup_cert_dummy. reflexivity.
Qed.

(** What the remote-forward [HandleTask] returns once the payload
    decodes. *)
Lemma Forward_HandleTask_outcome
    (Post : string -> string -> list byte -> result ForwardWorker.Response)
    (tw : ForwardWorker.TaskWorker) (t : TaskRequest.t) :
  36 <= length (TaskRequest.Payload t) ->
  outcome (ForwardWorker.HandleTask Post tw t) =
  match Post (ForwardWorker.RPCServerURL (ForwardWorker.config tw))
             ForwardWorker.jsonContentType
             (rpcRequest (firstn 32 (skipn 4 (TaskRequest.Payload t)))) with
  | Ok resp =>
      match ForwardWorker.Body resp with
      | Ok body =>
          Ok {| TaskResponse.TaskId := TaskRequest.TaskId t;
                TaskResponse.Result := body |}
      | Err e => Err (Errorf "failed to read response body: %w" [err e])
      | Panic msg => Panic msg
      end
  | Err e => Err (Errorf "failed to send POST request: %w" [err e])
  | Panic msg => Panic msg
  end.
Proof.
  intros Hlen.
  unfold ForwardWorker.HandleTask, ForwardWorker.getParsedABI.
  rewrite JSON_contract. go_outcome. cbn [Abi.Methods].
  rewrite lookup_cert. unfold ForwardWorker.methodSelectorLength.
  destruct (Nat.ltb_spec (length (TaskRequest.Payload t)) 4) as [| _];
    [lia |].
  go_outcome. rewrite slice_from_ok by lia.
  change (Abi.Inputs certMethod) with [bytes32Arg "txHash"].
  rewrite Unpack_bytes32_ok by (rewrite length_drop; lia).
  unfold ForwardWorker.expectedArgCount.
  cbn [length Nat.eqb negb]. go_outcome.
  cbn [index nth_error assertArray32].
  rewrite length_take, length_drop.
  replace (32 `min` (length (TaskRequest.Payload t) - 4)) with 32 by lia.
  cbn [Nat.eqb]. go_outcome. fold (rpcRequest (take 32 (drop 4 (TaskRequest.Payload t)))).
  destruct (Post _ _ _) as [resp | e | msg]; go_outcome; reflexivity.
Qed.

Lemma Forward_HandleTask_TaskId
    (Post : string -> string -> list byte -> result ForwardWorker.Response)
    (tw : ForwardWorker.TaskWorker) (t : TaskRequest.t) r :
  outcome (ForwardWorker.HandleTask Post tw t) = Ok r ->
  TaskResponse.TaskId r = TaskRequest.TaskId t.
Proof.
  unfold ForwardWorker.HandleTask. go_cases; intros H; try discriminate H.
  all: injection H as <-; reflexivity.
Qed.

(** A request that this [ValidateTask] rejects and [HandleTask]
    forwards. *)
Lemma Forward_accepts_what_validate_rejects :
  outcome (ForwardWorker.ValidateTask localhost testRequest) =
    Err (Errorf "ABI method 'dummy' not found" []) /\
  outcome (ForwardWorker.HandleTask echoPost localhost testRequest) =
    Ok {| TaskResponse.TaskId := Bytes.of_string "test-task-id";
          TaskResponse.Result := rpcRequest testValue |}.
Proof. split; vm_compute; reflexivity. Qed.

(** ** The repository's tests, run on the model *)

Example Sum256_abc :
  Hex.EncodeToString (Sha256.Sum256 (Bytes.of_string "abc")) =
  "ba7816bf8f01cfea414140de5dae2223b00361a396177a9cb410ff61f20015ad".
Proof. vm_compute. reflexivity. Qed.

Example Keccak256_empty :
  Hex.EncodeToString (Keccak.Keccak256 []) =
  "c5d2460186f7233c927e7db2dcc703c0e500b653ca82273b7bfad8045d85a470".
Proof. vm_compute. reflexivity. Qed.

Example Keccak256_transfer :
  Hex.EncodeToString
    (firstn 4 (Keccak.Keccak256 (Bytes.of_string "transfer(address,uint256)")))
  = "a9059cbb".
Proof. vm_compute. reflexivity. Qed.

Example TestValidateTask_ValidPayload :
  Abi.PackMethod (Worker.abi dummyWorker) "dummy" [array testValue]
    = Ok (TaskRequest.Payload testRequest) /\
  outcome (Worker.ValidateTask dummyWorker testRequest) = Ok tt /\
  outcome (Worker.HandleTask dummyWorker testRequest) =
    Ok {| TaskResponse.TaskId := TaskRequest.TaskId testRequest;
          TaskResponse.Result :=
            Bytes.of_string
              (Hex.EncodeToString
                 (Sha256.Sum256 (TaskRequest.Payload testRequest))) |}.
Proof. repeat split; vm_compute; reflexivity. Qed.

Example TestValidateTask_ShortPayload :
  outcome (Worker.ValidateTask dummyWorker shortRequest) = Err ErrShortPayload.
Proof. vm_compute. reflexivity. Qed.

Example TestValidateTask_WrongInputType :
  exists wrongWorker payload,
    Worker.NewTaskWorker uint256Cfg = Ok wrongWorker /\
    Abi.PackMethod (Worker.abi wrongWorker) "dummy" [bigInt 123] = Ok payload /\
    outcome (Worker.ValidateTask wrongWorker
               (TaskRequest.mk (Bytes.of_string "wrong-type-task") payload []))
    = Err (ErrLengthMismatch 32 0).
Proof. do 2 eexists. repeat split; vm_compute; reflexivity. Qed.

Example TestValidateTask_ExtraArguments :
  exists worker payload,
    Worker.NewTaskWorker twoArgCfg = Ok worker /\
    Abi.PackMethod (Worker.abi worker) "dummy"
      [array testValue; array otherValue] = Ok payload /\
    outcome (Worker.ValidateTask worker
               (TaskRequest.mk (Bytes.of_string "extra-arg-task") payload []))
    = Err (ErrLengthMismatch 64 0).
Proof. do 2 eexists. repeat split; vm_compute; reflexivity. Qed.

(** ** The claims of the specification *)

(** Claim C1 fails for the worker of cmd/main.go. The payload of the
    tests is the selector of [dummy(bytes32)] followed by a 32-byte value;
    that worker reads the payload as hexadecimal text, so it rejects the
    payload itself, and on the payload written as hexadecimal text it
    returns the digest of the 32-byte value, which is not the digest of
    the payload. *)
Theorem HandleTask_hex_text_worker_differs :
  TaskRequest.Payload testRequest =
    (firstn 4 (Keccak.Keccak256 (Bytes.of_string "dummy(bytes32)"))
     ++ testValue)%list /\
  length testValue = 32 /\
  outcome (HexWorker.HandleTask testRequest) =
    Err (Errorf "invalid hex string: %w"
           [err (HexDecode.InvalidByteError xfb)]) /\
  (forall r, outcome (HexWorker.HandleTask testRequest) <> Ok r) /\
  outcome (HexWorker.HandleTask
             (TaskRequest.mk (TaskRequest.TaskId testRequest)
                (Bytes.of_string
                   (Hex.EncodeToString (TaskRequest.Payload testRequest)))
                (TaskRequest.Metadata testRequest))) =
    Ok {| TaskResponse.TaskId := TaskRequest.TaskId testRequest;
          TaskResponse.Result :=
            Bytes.of_string (Hex.EncodeToString (Sha256.Sum256 testValue)) |}
  /\
  Hex.EncodeToString (Sha256.Sum256 testValue) <>
  Hex.EncodeToString (Sha256.Sum256 (TaskRequest.Payload testRequest)).
Proof.
  assert (Herr : outcome (HexWorker.HandleTask testRequest) =
                 Err (Errorf "invalid hex string: %w"
                        [err (HexDecode.InvalidByteError xfb)]))
    by (vm_compute; reflexivity).
  split; [vm_compute; reflexivity |].
  split; [reflexivity |].
  split; [exact Herr |].
  split; [intros r Hr; rewrite Herr in Hr; discriminate Hr |].
  split; [vm_compute; reflexivity |].
  vm_compute. discriminate.
Qed.

(** Claim C1, amended. With the interface [dummy(bytes32)], a payload made
    of the selector (the first four bytes of the Keccak-256 digest of the
    text [dummy(bytes32)]) followed by any 32-byte value is executed
    successfully by the configurable worker and by the worker that parses
    its interface on every call, and the result is the lowercase
    hexadecimal text of the SHA-256 digest of the whole payload, selector
    included. The worker of cmd/main.go takes hexadecimal text instead: it
    rejects that payload as an invalid hex string, and on the payload
    written as hexadecimal text it returns the lowercase hexadecimal text
    of the SHA-256 digest of the 32-byte value alone. *)
Theorem HandleTask_payload_digest
    (tw : Worker.TaskWorker) (taskId metadata selector value : list byte) :
  Worker.NewTaskWorker Worker.workerCfg = Ok tw ->
  selector = firstn 4 (Keccak.Keccak256 (Bytes.of_string "dummy(bytes32)")) ->
  length value = 32 ->
  let t := TaskRequest.mk taskId (selector ++ value) metadata in
  let response :=
    {| TaskResponse.TaskId := taskId;
       TaskResponse.Result :=
         Bytes.of_string
           (Hex.EncodeToString (Sha256.Sum256 (selector ++ value))) |} in
  Abi.Sig (Worker.method tw) = "dummy(bytes32)" /\
  outcome (Worker.HandleTask tw t) = Ok response /\
  outcome (InlineWorker.HandleTask t) = Ok response /\
  outcome (HexWorker.HandleTask t) =
    Err (Errorf "invalid hex string: %w"
           [err (HexDecode.InvalidByteError xfb)]) /\
  outcome (HexWorker.HandleTask
             (TaskRequest.mk taskId
                (Bytes.of_string (Hex.EncodeToString (selector ++ value)))
                metadata)) =
    Ok {| TaskResponse.TaskId := taskId;
          TaskResponse.Result :=
            Bytes.of_string (Hex.EncodeToString (Sha256.Sum256 value)) |}.
Proof.
  intros Htw Hsel Hval t response.
  apply NewTaskWorker_inv in Htw. subst tw.
  assert (Hlen : length (selector ++ value) = 36).
  { rewrite length_app, Hval, Hsel, dummySelector_digest. reflexivity. }
  assert (H : outcome (Worker.HandleTask dummyWorker t) = Ok response).
  { rewrite (Worker_HandleTask_bytes32 dummyWorker t "txHash" eq_refl).
    subst t. cbn [TaskRequest.Payload TaskRequest.TaskId]. cbv zeta.
    rewrite Hlen. reflexivity. }
  split; [exact dummyMethod_Sig |].
  split; [exact H |].
  split; [rewrite Inline_HandleTask_eq; exact H |].
  assert (Hsel' : selector = dummySelector)
    by (rewrite Hsel; exact dummySelector_digest).
  split.
  - subst t. rewrite Hsel'. apply HexWorker_rejects_selector.
  - apply HexWorker_hashes_argument; [| exact Hval].
    rewrite Hsel'. reflexivity.
Qed.

(** The theorem at the payload of the repository's test. *)
Lemma HandleTask_payload_digest_witness :
  Worker.NewTaskWorker Worker.workerCfg = Ok dummyWorker /\
  length testValue = 32 /\
  outcome (Worker.HandleTask dummyWorker testRequest) =
  Ok {| TaskResponse.TaskId := Bytes.of_string "test-task-id";
        TaskResponse.Result :=
          Bytes.of_string
            "352535ac34137af8cd7d501dfa99c4bb4a43a01088f32ee7230a4c66f3689003" |}.
Proof.
  assert (Htw : Worker.NewTaskWorker Worker.workerCfg = Ok dummyWorker)
    by (vm_compute; reflexivity).
  assert (Hsel : dummySelector =
                 firstn 4 (Keccak.Keccak256 (Bytes.of_string "dummy(bytes32)")))
    by (vm_compute; reflexivity).
  assert (Hval : length testValue = 32) by reflexivity.
  split; [exact Htw |]. split; [exact Hval |].
  exact (proj1 (proj2 (HandleTask_payload_digest dummyWorker
                         (Bytes.of_string "test-task-id")
                         (Bytes.of_string "test-metadata")
                         dummySelector testValue Htw Hsel Hval))).
Defined.

(** Claim C2 fails as stated: [HandleTask] executes a request whose
    selector is wrong, and one that carries a second 32-byte word, while
    [ValidateTask] rejects both. *)
Lemma HandleTask_accepts_more_than_ValidateTask :
  Worker.NewTaskWorker Worker.workerCfg = Ok dummyWorker /\
  (exists r,
      outcome (Worker.HandleTask dummyWorker wrongSelectorRequest) = Ok r) /\
  outcome (Worker.ValidateTask dummyWorker wrongSelectorRequest) =
    Err ErrSelectorMismatch /\
  (exists r,
      outcome (Worker.HandleTask dummyWorker extraArgRequest) = Ok r) /\
  outcome (Worker.ValidateTask dummyWorker extraArgRequest) =
    Err (ErrLengthMismatch 64 32).
Proof.
  split; [vm_compute; reflexivity |].
  split; [eexists; vm_compute; reflexivity |].
  split; [vm_compute; reflexivity |].
  split; [eexists; vm_compute; reflexivity |].
  vm_compute; reflexivity.
Qed.

(** Claim C2, amended. With the interface [dummy(bytes32)], [ValidateTask]
    accepts exactly the payloads of 36 bytes that start with the selector,
    and [HandleTask] accepts exactly the payloads of at least 36 bytes: it
    checks the length of the prefix and decodes the first 32-byte word, but
    compares neither the selector nor the length of the argument region. So
    every request that [ValidateTask] accepts is executed by [HandleTask],
    not conversely. The worker that parses its interface on every call
    validates the same requests, and validation only writes one log
    record. *)
Theorem ValidateTask_implies_HandleTask
    (tw : Worker.TaskWorker) (t : TaskRequest.t) :
  Worker.NewTaskWorker Worker.workerCfg = Ok tw ->
  let payload := TaskRequest.Payload t in
  (outcome (Worker.ValidateTask tw t) = Ok tt <->
   length payload = 36 /\ firstn 4 payload = Abi.ID (Worker.method tw)) /\
  ((exists r, outcome (Worker.HandleTask tw t) = Ok r) <->
   36 <= length payload) /\
  (outcome (Worker.ValidateTask tw t) = Ok tt ->
   exists r, outcome (Worker.HandleTask tw t) = Ok r) /\
  (outcome (InlineWorker.ValidateTask t) = Ok tt <->
   outcome (Worker.ValidateTask tw t) = Ok tt) /\
  logs (Worker.ValidateTask tw t) =
    [Logw Info "Validating task" [("task_id", bytes (TaskRequest.TaskId t))]].
Proof.
  intros Htw payload. apply NewTaskWorker_inv in Htw. subst tw.
  assert (HV : outcome (Worker.ValidateTask dummyWorker t) = Ok tt <->
               length payload = 36 /\
               firstn 4 payload = Abi.ID (Worker.method dummyWorker)).
  { rewrite (Worker_ValidateTask_bytes32 dummyWorker t "txHash" eq_refl).
    cbv zeta. fold payload.
    destruct (Nat.ltb_spec (length payload) 4) as [Hs | Hs].
    { split; [discriminate | intros [? _]; lia]. }
    destruct (Worker.equalBytes _ _) eqn:E; cbn [negb].
    2:{ split; [discriminate |]. intros [_ Heq].
        apply equalBytes_eq in Heq. congruence. }
    apply equalBytes_eq in E.
    destruct (Nat.eqb_spec (length payload - 4) 32) as [E32 | E32];
      cbn [negb].
    - split; [intros _; split; [lia | exact E] | reflexivity].
    - split; [discriminate | intros [? _]; lia]. }
  assert (HH : (exists r, outcome (Worker.HandleTask dummyWorker t) = Ok r)
               <-> 36 <= length payload).
  { rewrite (Worker_HandleTask_bytes32 dummyWorker t "txHash" eq_refl).
    cbv zeta. fold payload.
    destruct (Nat.ltb_spec (length payload) 4) as [Hs | Hs].
    { split; [intros [r Hr]; discriminate Hr | lia]. }
    destruct (Nat.eqb_spec (length payload) 4) as [H4 | H4].
    { split; [intros [r Hr]; discriminate Hr | lia]. }
    destruct (Nat.ltb_spec (length payload) 36) as [H36 | H36].
    { split; [intros [r Hr]; discriminate Hr | lia]. }
    split; [intros _; exact H36 | intros _; eexists; reflexivity]. }
  split; [exact HV |]. split; [exact HH |].
  split.
  { intros Hok. apply HH. apply HV in Hok as [Hlen _]. lia. }
  split; [| apply Worker_ValidateTask_logs].
  rewrite HV, Inline_ValidateTask_outcome. cbv zeta. fold payload.
  change (Abi.ID (Worker.method dummyWorker)) with (Abi.ID dummyMethod).
  rewrite dummyMethod_ID.
  destruct (Nat.ltb_spec (length payload) 4) as [Hs | Hs].
  { split; [discriminate | intros [? _]; lia]. }
  destruct (InlineWorker.HasPrefix _ _) eqn:E; cbn [negb].
  2:{ split; [discriminate |]. intros [_ Heq].
      rewrite Heq in E.
      rewrite (proj2 (HasPrefix_hex dummySelector dummySelector eq_refl)
                 eq_refl) in E.
      discriminate E. }
  apply HasPrefix_hex in E;
    [| rewrite length_take; unfold dummySelector; cbn [length]; lia].
  destruct (Nat.eqb_spec (length payload - 4) 32) as [E32 | E32];
    cbn [negb].
  - split; [intros _; split; [lia | exact E] | reflexivity].
  - split; [discriminate | intros [? _]; lia].
Qed.

(** The theorem at the request of the repository's test. *)
Lemma ValidateTask_implies_HandleTask_witness :
  Worker.NewTaskWorker Worker.workerCfg = Ok dummyWorker /\
  outcome (Worker.ValidateTask dummyWorker testRequest) = Ok tt /\
  exists r, outcome (Worker.HandleTask dummyWorker testRequest) = Ok r.
Proof.
  assert (Htw : Worker.NewTaskWorker Worker.workerCfg = Ok dummyWorker)
    by (vm_compute; reflexivity).
  split; [exact Htw |].
  destruct (ValidateTask_implies_HandleTask dummyWorker testRequest Htw)
    as (HV & _ & Himp & _).
  assert (Hok : outcome (Worker.ValidateTask dummyWorker testRequest) = Ok tt).
  { apply HV. split; vm_compute; reflexivity. }
  split; [exact Hok | exact (Himp Hok)].
Defined.

(** Claim C3 fails for the worker that parses its interface on every
    call: it tests the length together with the selector, so the
    three-byte payload of the tests gets the selector error, which is not
    the short-payload error. *)
Theorem ValidateTask_short_payload_inline_differs :
  length (TaskRequest.Payload shortRequest) < 4 /\
  outcome (InlineWorker.ValidateTask shortRequest) = Err ErrSelectorMismatch /\
  outcome (InlineWorker.ValidateTask shortRequest) <> Err ErrShortPayload.
Proof.
  assert (Herr : outcome (InlineWorker.ValidateTask shortRequest)
                 = Err ErrSelectorMismatch) by (vm_compute; reflexivity).
  split; [cbn; lia |]. split; [exact Herr |].
  rewrite Herr. discriminate.
Qed.

(** Claim C3, amended. For every request whose payload is shorter than 4
    bytes, [ValidateTask] of the configurable worker, whatever its
    interface, returns the short-payload error, which is neither the
    selector error nor a length error. The worker that parses its
    interface on every call has no separate length test and returns the
    selector error on every such payload. *)
Theorem ValidateTask_short_payload
    (tw : Worker.TaskWorker) (t : TaskRequest.t) :
  length (TaskRequest.Payload t) < 4 ->
  outcome (Worker.ValidateTask tw t) = Err ErrShortPayload /\
  ErrShortPayload <> ErrSelectorMismatch /\
  (forall got want, ErrShortPayload <> ErrLengthMismatch got want) /\
  outcome (InlineWorker.ValidateTask t) = Err ErrSelectorMismatch.
Proof.
  intros Hlen.
  split; [| split; [discriminate | split; [discriminate |]]].
  - unfold Worker.ValidateTask. go_outcome.
    destruct (Nat.ltb_spec (length (TaskRequest.Payload t)) 4);
      [reflexivity | lia].
  - exact (Inline_short_payload t Hlen).
Qed.

(** The theorem at the three-byte payload of the repository's test. *)
Lemma ValidateTask_short_payload_witness :
  length (TaskRequest.Payload shortRequest) < 4 /\
  outcome (Worker.ValidateTask dummyWorker shortRequest) = Err ErrShortPayload.
Proof.
  assert (H : length (TaskRequest.Payload shortRequest) < 4) by (cbn; lia).
  split; [exact H |].
  exact (proj1 (ValidateTask_short_payload dummyWorker shortRequest H)).
Defined.

(** Claim C4. For every request whose payload has at least 4 bytes, if the
    first 4 bytes differ from the selector of the worker's method, then
    [ValidateTask] returns the selector-mismatch error; the same holds for
    the worker that parses its interface on every call, whose selector is
    that of [dummy(bytes32)]. *)
Theorem ValidateTask_selector_mismatch
    (tw : Worker.TaskWorker) (t : TaskRequest.t) :
  4 <= length (TaskRequest.Payload t) ->
  (firstn 4 (TaskRequest.Payload t) <> Abi.ID (Worker.method tw) ->
   outcome (Worker.ValidateTask tw t) = Err ErrSelectorMismatch) /\
  (firstn 4 (TaskRequest.Payload t) <> dummySelector ->
   outcome (InlineWorker.ValidateTask t) = Err ErrSelectorMismatch).
Proof.
  intros Hlen. split; intros Hne.
  - unfold Worker.ValidateTask. go_outcome.
    destruct (Nat.ltb_spec (length (TaskRequest.Payload t)) 4); [lia |].
    rewrite slice_to_ok by lia. go_outcome.
    destruct (Worker.equalBytes _ _) eqn:E; [| reflexivity].
    apply equalBytes_eq in E. contradiction.
  - rewrite Inline_ValidateTask_outcome. cbv zeta.
    destruct (Nat.ltb_spec (length (TaskRequest.Payload t)) 4); [lia |].
    destruct (InlineWorker.HasPrefix _ _) eqn:E; [| reflexivity].
    apply HasPrefix_hex in E;
      [contradiction
      | rewrite length_take; unfold dummySelector; cbn [length]; lia].
Qed.

(** The theorem at a payload that starts with 01 02 03 04. *)
Lemma ValidateTask_selector_mismatch_witness :
  4 <= length (TaskRequest.Payload wrongSelectorRequest) /\
  firstn 4 (TaskRequest.Payload wrongSelectorRequest)
    <> Abi.ID (Worker.method dummyWorker) /\
  outcome (Worker.ValidateTask dummyWorker wrongSelectorRequest) =
    Err ErrSelectorMismatch /\
  outcome (InlineWorker.ValidateTask wrongSelectorRequest) =
    Err ErrSelectorMismatch.
Proof.
  assert (Hlen : 4 <= length (TaskRequest.Payload wrongSelectorRequest))
    by (cbn; lia).
  assert (Hne : firstn 4 (TaskRequest.Payload wrongSelectorRequest)
                <> Abi.ID (Worker.method dummyWorker))
    by (vm_compute; discriminate).
  assert (Hne' : firstn 4 (TaskRequest.Payload wrongSelectorRequest)
                 <> dummySelector)
    by (vm_compute; discriminate).
  destruct (ValidateTask_selector_mismatch dummyWorker wrongSelectorRequest
              Hlen) as [HW HI].
  split; [exact Hlen |]. split; [exact Hne |].
  split; [exact (HW Hne) | exact (HI Hne')].
Defined.

(** Claim C5. With the interface [dummy(bytes32)], the reference encoding
    of the zero argument is 32 bytes long, and for every request with the
    right selector whose argument region is not 32 bytes long
    [ValidateTask] returns the length-mismatch error, which carries the
    observed length and the expected length 32. The same holds for the
    worker that parses its interface on every call. *)
Theorem ValidateTask_length_mismatch
    (tw : Worker.TaskWorker) (t : TaskRequest.t) :
  Worker.NewTaskWorker Worker.workerCfg = Ok tw ->
  4 <= length (TaskRequest.Payload t) ->
  firstn 4 (TaskRequest.Payload t) = Abi.ID (Worker.method tw) ->
  length (TaskRequest.Payload t) - 4 <> 32 ->
  Abi.Pack (Abi.Inputs (Worker.method tw)) [array (repeat x00 32)]
    = Ok (repeat x00 32) /\
  outcome (Worker.ValidateTask tw t) =
    Err (ErrLengthMismatch (length (TaskRequest.Payload t) - 4) 32) /\
  outcome (InlineWorker.ValidateTask t) =
    Err (ErrLengthMismatch (length (TaskRequest.Payload t) - 4) 32).
Proof.
  intros Htw Hlen Hsel Hne. apply NewTaskWorker_inv in Htw. subst tw.
  split; [apply (Pack_bytes32 "txHash"); reflexivity |].
  split.
  - rewrite (Worker_ValidateTask_bytes32 dummyWorker t "txHash" eq_refl).
    cbv zeta.
    destruct (Nat.ltb_spec (length (TaskRequest.Payload t)) 4); [lia |].
    rewrite (proj2 (equalBytes_eq _ _) Hsel). cbn [negb].
    destruct (Nat.eqb_spec (length (TaskRequest.Payload t) - 4) 32);
      [contradiction | reflexivity].
  - rewrite Inline_ValidateTask_outcome. cbv zeta.
    destruct (Nat.ltb_spec (length (TaskRequest.Payload t)) 4); [lia |].
    rewrite Hsel. change (Abi.ID (Worker.method dummyWorker))
      with (Abi.ID dummyMethod). rewrite dummyMethod_ID.
    rewrite (proj2 (HasPrefix_hex dummySelector dummySelector eq_refl)
               eq_refl).
    cbn [negb].
    destruct (Nat.eqb_spec (length (TaskRequest.Payload t) - 4) 32);
      [contradiction | reflexivity].
Qed.

(** The theorem at a payload that encodes two [bytes32] arguments. *)
Lemma ValidateTask_length_mismatch_witness :
  Worker.NewTaskWorker Worker.workerCfg = Ok dummyWorker /\
  length (TaskRequest.Payload extraArgRequest) - 4 = 64 /\
  outcome (Worker.ValidateTask dummyWorker extraArgRequest) =
    Err (ErrLengthMismatch 64 32).
Proof.
  assert (Htw : Worker.NewTaskWorker Worker.workerCfg = Ok dummyWorker)
    by (vm_compute; reflexivity).
  split; [exact Htw |]. split; [reflexivity |].
  refine (proj1 (proj2 (ValidateTask_length_mismatch dummyWorker
                          extraArgRequest Htw _ _ _))).
  - cbn; lia.
  - vm_compute; reflexivity.
  - cbn; lia.
Defined.

(** Claim C6. With the interface [dummy(bytes32)], for every 32-byte value
    the canonical encoding prefixed with the selector is a payload that
    [ValidateTask] accepts, that unpacks to the value itself, and that
    [HandleTask] executes, logging the value it decoded. *)
Theorem argument_round_trip
    (tw : Worker.TaskWorker) (taskId metadata value : list byte) :
  Worker.NewTaskWorker Worker.workerCfg = Ok tw ->
  length value = 32 ->
  exists payload,
    let t := TaskRequest.mk taskId payload metadata in
    Abi.PackMethod (Worker.abi tw) "dummy" [array value] = Ok payload /\
    payload = (Abi.ID (Worker.method tw) ++ value)%list /\
    outcome (Worker.ValidateTask tw t) = Ok tt /\
    Abi.Unpack (Abi.Inputs (Worker.method tw)) (skipn 4 payload)
      = Ok [array value] /\
    (exists r, outcome (Worker.HandleTask tw t) = Ok r) /\
    In (Logf Info "Extracted txHash: 0x%x" [array value])
       (logs (Worker.HandleTask tw t)).
Proof.
  intros Htw Hval. apply NewTaskWorker_inv in Htw. subst tw.
  exists (dummySelector ++ value)%list. cbv zeta.
  assert (Hlen : length (dummySelector ++ value) = 36).
  { rewrite length_app, Hval. reflexivity. }
  assert (Hdrop : skipn 4 (dummySelector ++ value) = value) by reflexivity.
  split.
  { unfold Abi.PackMethod. cbn [Worker.abi dummyWorker Abi.Methods].
    rewrite lookup_dummy.
    change (Abi.Inputs dummyMethod) with [bytes32Arg "txHash"].
    rewrite Pack_bytes32 by assumption. cbn [andThen].
    rewrite dummyMethod_ID. reflexivity. }
  split.
  { change (Abi.ID (Worker.method dummyWorker)) with (Abi.ID dummyMethod).
    rewrite dummyMethod_ID. reflexivity. }
  split.
  { rewrite (Worker_ValidateTask_bytes32 dummyWorker _ "txHash" eq_refl).
    cbn [TaskRequest.Payload]. cbv zeta. rewrite Hlen.
    change (Abi.ID (Worker.method dummyWorker)) with (Abi.ID dummyMethod).
    rewrite dummyMethod_ID.
    change (firstn 4 (dummySelector ++ value)) with dummySelector.
    rewrite (proj2 (equalBytes_eq dummySelector dummySelector) eq_refl).
    reflexivity. }
  split.
  { rewrite Hdrop.
    change (Abi.Inputs (Worker.method dummyWorker))
      with [bytes32Arg "txHash"].
    rewrite Unpack_bytes32_ok by lia. rewrite take_ge by lia. reflexivity. }
  split.
  { rewrite (Worker_HandleTask_bytes32 dummyWorker _ "txHash" eq_refl).
    cbn [TaskRequest.Payload]. cbv zeta. rewrite Hlen.
    eexists. reflexivity. }
  rewrite (Worker_HandleTask_logs_ok dummyWorker _ "txHash" eq_refl)
    by (cbn [TaskRequest.Payload]; lia).
  cbn [TaskRequest.Payload]. rewrite Hdrop, take_ge by lia.
  right. left. reflexivity.
Qed.

(** The theorem at the value of the repository's test. *)
Lemma argument_round_trip_witness :
  Worker.NewTaskWorker Worker.workerCfg = Ok dummyWorker /\
  length testValue = 32 /\
  outcome (Worker.ValidateTask dummyWorker testRequest) = Ok tt /\
  Abi.Unpack (Abi.Inputs (Worker.method dummyWorker))
    (skipn 4 (TaskRequest.Payload testRequest)) = Ok [array testValue].
Proof.
  assert (Htw : Worker.NewTaskWorker Worker.workerCfg = Ok dummyWorker)
    by (vm_compute; reflexivity).
  assert (Hval : length testValue = 32) by reflexivity.
  split; [exact Htw |]. split; [exact Hval |].
  destruct (argument_round_trip dummyWorker (Bytes.of_string "test-task-id")
              (Bytes.of_string "test-metadata") testValue Htw Hval)
    as (payload & _ & -> & HV & HU & _).
  split; [exact HV | exact HU].
Defined.

(** Claim C7. In the remote-forward worker, for every request whose payload
    decodes (4 bytes of prefix and at least one 32-byte word), [HandleTask]
    posts the JSON-RPC request built from the decoded word and returns the
    bytes read from the response body unchanged as the result, whatever the
    status code; when the request cannot be sent, or the body cannot be
    read, it returns the corresponding error wrapping the cause. *)
Theorem remote_body_passed_through
    (Post : string -> string -> list byte -> result ForwardWorker.Response)
    (tw : ForwardWorker.TaskWorker) (t : TaskRequest.t) :
  36 <= length (TaskRequest.Payload t) ->
  let txHash := firstn 32 (skipn 4 (TaskRequest.Payload t)) in
  let reply :=
    Post (ForwardWorker.RPCServerURL (ForwardWorker.config tw))
         ForwardWorker.jsonContentType (rpcRequest txHash) in
  (forall resp body,
      reply = Ok resp -> ForwardWorker.Body resp = Ok body ->
      outcome (ForwardWorker.HandleTask Post tw t) =
      Ok {| TaskResponse.TaskId := TaskRequest.TaskId t;
            TaskResponse.Result := body |}) /\
  (forall e,
      reply = Err e ->
      outcome (ForwardWorker.HandleTask Post tw t) =
      Err (ErrRemoteUnavailable e)) /\
  (forall resp e,
      reply = Ok resp -> ForwardWorker.Body resp = Err e ->
      outcome (ForwardWorker.HandleTask Post tw t) =
      Err (ErrRemoteResponse e)).
Proof.
  intros Hlen txHash reply.
  pose proof (Forward_HandleTask_outcome Post tw t Hlen) as H.
  fold txHash in H. fold reply in H.
  repeat split.
  - intros resp body Hr Hb. rewrite H, Hr, Hb. reflexivity.
  - intros e Hr. rewrite H, Hr. reflexivity.
  - intros resp e Hr Hb. rewrite H, Hr, Hb. reflexivity.
Qed.

(** The theorem against an endpoint that echoes the request body. *)
Lemma remote_body_passed_through_witness :
  36 <= length (TaskRequest.Payload testRequest) /\
  outcome (ForwardWorker.HandleTask echoPost localhost testRequest) =
  Ok {| TaskResponse.TaskId := Bytes.of_string "test-task-id";
        TaskResponse.Result := rpcRequest testValue |}.
Proof.
  assert (Hlen : 36 <= length (TaskRequest.Payload testRequest))
    by (cbn; lia).
  split; [exact Hlen |].
  destruct (remote_body_passed_through echoPost localhost testRequest Hlen)
    as (H & _ & _).
  exact (H _ _ eq_refl eq_refl).
Defined.

(** Claim C8. Whenever [HandleTask] succeeds, in the local-compute worker
    and in the remote-forward worker alike, the task id of the response is
    the task id of the request. *)
Theorem HandleTask_preserves_TaskId :
  (forall (tw : Worker.TaskWorker) (t : TaskRequest.t) (r : TaskResponse.t),
      outcome (Worker.HandleTask tw t) = Ok r ->
      TaskResponse.TaskId r = TaskRequest.TaskId t) /\
  (forall (Post : string -> string -> list byte ->
                  result ForwardWorker.Response)
          (tw : ForwardWorker.TaskWorker) (t : TaskRequest.t)
          (r : TaskResponse.t),
      outcome (ForwardWorker.HandleTask Post tw t) = Ok r ->
      TaskResponse.TaskId r = TaskRequest.TaskId t).
Proof.
  split.
  - exact Worker_HandleTask_TaskId.
  - exact Forward_HandleTask_TaskId.
Qed.

(** Both workers succeed on the test request and keep its task id. *)
Lemma HandleTask_preserves_TaskId_witness :
  (exists r, outcome (Worker.HandleTask dummyWorker testRequest) = Ok r /\
             TaskResponse.TaskId r = Bytes.of_string "test-task-id") /\
  (exists r, outcome (ForwardWorker.HandleTask echoPost localhost testRequest)
             = Ok r /\
             TaskResponse.TaskId r = Bytes.of_string "test-task-id").
Proof.
  destruct HandleTask_preserves_TaskId as [HL HR].
  split.
  - eexists. split; [vm_compute; reflexivity |].
    refine (HL dummyWorker testRequest _ _). vm_compute; reflexivity.
  - eexists. split; [vm_compute; reflexivity |].
    refine (HR echoPost localhost testRequest _ _). vm_compute; reflexivity.
Defined.

(** Claim C9. For every configuration from which [NewTaskWorker] builds a
    worker (interfaces over [bytesN] and [uint256]) and for every request,
    neither [ValidateTask] nor [HandleTask] panics: each returns normally or
    returns an error. The same holds for the worker that parses its
    interface on every call, and with the configuration of [main] the
    reference encoding is computed without error. *)
Theorem workers_never_panic
    (cfg : Worker.TaskWorkerConfig) (tw : Worker.TaskWorker)
    (t : TaskRequest.t) :
  Worker.NewTaskWorker cfg = Ok tw ->
  panics (outcome (Worker.ValidateTask tw t)) = false /\
  panics (outcome (Worker.HandleTask tw t)) = false /\
  panics (outcome (InlineWorker.ValidateTask t)) = false /\
  panics (outcome (InlineWorker.HandleTask t)) = false /\
  (cfg = Worker.workerCfg ->
   Abi.Pack (Abi.Inputs (Worker.method tw)) [array (repeat x00 32)]
   = Ok (repeat x00 32)).
Proof.
  intros Htw. pose proof (NewTaskWorker_valid cfg tw Htw) as Hv.
  split; [apply Worker_ValidateTask_no_panic; exact Hv |].
  split; [apply Worker_HandleTask_no_panic; exact Hv |].
  split; [apply Inline_ValidateTask_no_panic |].
  split.
  - rewrite Inline_HandleTask_eq. apply Worker_HandleTask_no_panic.
    exact (NewTaskWorker_valid _ _ NewTaskWorker_workerCfg).
  - intros ->. apply NewTaskWorker_inv in Htw. subst tw.
    apply (Pack_bytes32 "txHash"). reflexivity.
Qed.

(** The theorem at the worker of [main] and a three-byte payload. *)
Lemma workers_never_panic_witness :
  Worker.NewTaskWorker Worker.workerCfg = Ok dummyWorker /\
  panics (outcome (Worker.ValidateTask dummyWorker shortRequest)) = false /\
  panics (outcome (Worker.HandleTask dummyWorker shortRequest)) = false /\
  Abi.Pack (Abi.Inputs (Worker.method dummyWorker)) [array (repeat x00 32)]
  = Ok (repeat x00 32).
Proof.
  assert (Htw : Worker.NewTaskWorker Worker.workerCfg = Ok dummyWorker)
    by (vm_compute; reflexivity).
  split; [exact Htw |].
  destruct (workers_never_panic Worker.workerCfg dummyWorker shortRequest Htw)
    as (HV & HH & _ & _ & HP).
  split; [exact HV |]. split; [exact HH | exact (HP eq_refl)].
Defined.

(** Claim C10. The interface of the remote-forward worker declares only
    [core_issuePaymentCert], so its [ValidateTask], which looks up [dummy],
    rejects every request with the method-not-found error, having written
    only the opening log record. *)
Theorem remote_ValidateTask_always_rejects
    (tw : ForwardWorker.TaskWorker) (t : TaskRequest.t) :
  (exists parsedABI,
      ForwardWorker.getParsedABI tw = Ok parsedABI /\
      dom (Abi.Methods parsedABI) = {[ "core_issuePaymentCert" ]}) /\
  outcome (ForwardWorker.ValidateTask tw t) =
    Err (Errorf "ABI method 'dummy' not found" []) /\
  logs (ForwardWorker.ValidateTask tw t) =
    [Logw Info "Validating task" [("task", anyTask t)]].
Proof.
  split.
  - eexists. split; [exact JSON_contract |].
    cbn [Abi.Methods]. apply dom_singleton_L.
  - rewrite Forward_ValidateTask_eq. split; reflexivity.
Qed.

(** * Further properties of the workers *)

(** ** The lengths of the digests *)

Lemma le_of_Z_length (n : nat) (z : Z) : length (Bytes.le_of_Z n z) = n.
Proof.
  revert z. induction n as [| n IH]; intros z; cbn; [reflexivity |].
  rewrite IH. reflexivity.
Qed.

Lemma be_of_Z_length (n : nat) (z : Z) : length (Bytes.be_of_Z n z) = n.
Proof. unfold Bytes.be_of_Z. rewrite length_rev. apply le_of_Z_length. Qed.

Lemma Sum256_length (data : list byte) : length (Sha256.Sum256 data) = 32.
Proof.
  unfold Sha256.Sum256. cbv zeta. cbn [map concat].
  rewrite !length_app, !be_of_Z_length. reflexivity.
Qed.

Lemma round_length (a : list Z) (rc : Z) : length (Keccak.round a rc) = 25.
Proof.
  unfold Keccak.round, Keccak.iota.
  destruct (Keccak.chi _) as [| a0 rest] eqn:E.
  - apply (f_equal (@length Z)) in E. unfold Keccak.chi in E.
    rewrite length_map in E. discriminate E.
  - apply (f_equal (@length Z)) in E. unfold Keccak.chi in E.
    rewrite length_map in E. cbn [length] in *. symmetry. exact E.
Qed.

Lemma fold_round_length (rcs : list Z) (a : list Z) :
  length a = 25 -> length (fold_left Keccak.round rcs a) = 25.
Proof.
  revert a. induction rcs as [| rc rcs IH]; intros a Ha; cbn [fold_left];
    [exact Ha |].
  apply IH, round_length.
Qed.

Lemma absorb_length (a : list Z) (blk : list byte) :
  length (Keccak.absorb a blk) = 25.
Proof.
  unfold Keccak.absorb, Keccak.keccakF1600.
  change Keccak.RC with (1%Z :: tl Keccak.RC).
  cbn [fold_left]. apply fold_round_length, round_length.
Qed.

Lemma fold_absorb_length (blks : list (list byte)) (a : list Z) :
  length a = 25 -> length (fold_left Keccak.absorb blks a) = 25.
Proof.
  revert a. induction blks as [| blk blks IH]; intros a Ha; cbn [fold_left];
    [exact Ha |].
  apply IH, absorb_length.
Qed.

Lemma Keccak256_length (data : list byte) :
  length (Keccak.Keccak256 data) = 32.
Proof.
  unfold Keccak.Keccak256. cbv zeta.
  pose proof (fold_absorb_length
                (Bytes.chunks (length (Keccak.pad data)) Keccak.rate
                   (Keccak.pad data)) (repeat 0%Z 25) eq_refl) as H.
  destruct (fold_left _ _ _) as [| a0 [| a1 [| a2 [| a3 rest]]]];
    try discriminate H.
  cbn [firstn map concat]. rewrite !length_app, !le_of_Z_length.
  reflexivity.
Qed.

(** ** The text [hex.EncodeToString] writes *)

Lemma digit_lowerHex (n : Z) :
  lowerHex (byte_of_ascii (Hex.digit n)) = true.
Proof.
  unfold Hex.digit. generalize (Z.to_nat n). intros k.
  do 16 (destruct k as [| k]; [vm_compute; reflexivity |]).
  destruct k; vm_compute; reflexivity.
Qed.

Lemma EncodeToString_lowerHex (src : list byte) :
  forallb lowerHex (Bytes.of_string (Hex.EncodeToString src)) = true.
Proof.
  induction src as [| v rest IH]; [reflexivity |].
  rewrite EncodeToString_cons.
  change (Bytes.of_string (String ?a (String ?b ?s)))
    with (byte_of_ascii a :: byte_of_ascii b :: Bytes.of_string s).
  cbn [forallb]. rewrite !digit_lowerHex, IH. reflexivity.
Qed.

Lemma of_string_length (s : string) :
  length (Bytes.of_string s) = String.length s.
Proof.
  induction s as [| c s IH]; [reflexivity |].
  change (Bytes.of_string (String c s))
    with (byte_of_ascii c :: Bytes.of_string s).
  cbn [length String.length]. rewrite IH. reflexivity.
Qed.

(** ** What the configurable worker accepts *)

Lemma toGoType_typed (index : nat) (t : Abi.Type_) (output : list byte)
    (v : any) :
  Abi.toGoType index t output = Ok v -> hasType t v.
Proof.
  unfold Abi.toGoType.
  destruct (Nat.ltb_spec (length output) (index + 32)) as [| Hlen];
    [discriminate |].
  rewrite slice_ok by lia. cbn [andThen].
  destruct t as [n |]; cbn [Abi.ReadFixedBytes Abi.ReadInteger].
  - unfold slice.
    destruct ((0 <=? n) && (n <=? length _)) eqn:E; cbn [andThen];
      [| discriminate].
    intros H. injection H as <-. cbn [hasType].
    apply andb_prop in E as [_ E]. apply Nat.leb_le in E.
    rewrite length_take, drop_0. lia.
  - unfold Abi.ReadInteger. intros H. injection H as <-. exact I.
Qed.

Lemma unpackFrom_typed (arguments : list Abi.Argument) (data : list byte) :
  forall index args,
    Abi.unpackFrom index arguments data = Ok args ->
    Forall2 (fun arg v => hasType (Abi.ArgType arg) v) arguments args.
Proof.
  induction arguments as [| arg rest IH]; intros index args; cbn [Abi.unpackFrom].
  - intros H. injection H as <-. constructor.
  - destruct (Abi.toGoType _ _ _) as [v | |] eqn:Ev; cbn [andThen];
      try discriminate.
    destruct (Abi.unpackFrom _ _ _) as [vs | |] eqn:Evs; cbn [andThen];
      try discriminate.
    intros H. injection H as <-.
    constructor; [eapply toGoType_typed; eassumption | eapply IH; eassumption].
Qed.

Lemma Unpack_typed (arguments : list Abi.Argument) (data : list byte)
    (args : list any) :
  Abi.Unpack arguments data = Ok args ->
  Forall2 (fun arg v => hasType (Abi.ArgType arg) v) arguments args.
Proof.
  unfold Abi.Unpack. destruct (length data =? 0).
  - destruct arguments as [| arg rest]; cbn [length Nat.eqb negb];
      [| discriminate].
    intros H. injection H as <-. constructor.
  - apply unpackFrom_typed.
Qed.

Lemma assertArray32_Some (v : any) (h : list byte) :
  assertArray32 v = Some h -> v = array h /\ length h = 32.
Proof.
  destruct v; cbn; try discriminate.
  destruct (Nat.eqb_spec (length b) 32); [| discriminate].
  intros H. injection H as <-. split; [reflexivity | assumption].
Qed.

Lemma single_array32_inputs (arguments : list Abi.Argument)
    (data : list byte) (args : list any) (a : any) (h : list byte) :
  Abi.Unpack arguments data = Ok args ->
  length args = 1 -> index args 0 = Ok a -> assertArray32 a = Some h ->
  exists name, arguments = [bytes32Arg name].
Proof.
  intros HU Hlen Hidx Has.
  apply Unpack_typed in HU.
  destruct args as [| a' [| ? ?]]; try discriminate Hlen.
  cbn in Hidx. injection Hidx as ->.
  apply assertArray32_Some in Has as [-> Hh].
  inversion HU as [| arg v rest vs Ht Hrest]; subst.
  inversion Hrest; subst.
  destruct arg as [name [n |]]; cbn in Ht; [| contradiction].
  exists name. unfold bytes32Arg. congruence.
Qed.

Lemma Worker_HandleTask_Ok (tw : Worker.TaskWorker) (t : TaskRequest.t)
    (r : TaskResponse.t) :
  outcome (Worker.HandleTask tw t) = Ok r ->
  4 <= length (TaskRequest.Payload t) /\
  (exists args a h,
      Abi.Unpack (Abi.Inputs (Worker.method tw))
        (skipn 4 (TaskRequest.Payload t)) = Ok args /\
      length args = 1 /\ index args 0 = Ok a /\ assertArray32 a = Some h) /\
  r = {| TaskResponse.TaskId := TaskRequest.TaskId t;
         TaskResponse.Result :=
           Bytes.of_string
             (Hex.EncodeToString (Sha256.Sum256 (TaskRequest.Payload t))) |}.
Proof.
  unfold Worker.HandleTask. go_outcome.
  destruct (Nat.ltb_spec (length (TaskRequest.Payload t)) 4) as [| Hlen];
    [discriminate |].
  rewrite slice_from_ok by lia. go_outcome.
  destruct (Abi.Unpack _ _) as [args | e | msg] eqn:HU; go_outcome;
    try discriminate.
  destruct (Nat.eqb_spec (length args) 1) as [Hargs | Hargs]; cbn [negb];
    go_outcome; [| discriminate].
  destruct (index args 0) as [a | e | msg] eqn:Hidx; try discriminate.
  destruct (assertArray32 a) as [h |] eqn:Has; go_outcome; [| discriminate].
  intros H. injection H as <-.
  split; [exact Hlen |]. split; [| reflexivity].
  exists args, a, h. auto.
Qed.

Lemma Worker_ValidateTask_Ok (tw : Worker.TaskWorker) (t : TaskRequest.t) :
  outcome (Worker.ValidateTask tw t) = Ok tt ->
  exists args a h,
    Abi.Unpack (Abi.Inputs (Worker.method tw))
      (skipn 4 (TaskRequest.Payload t)) = Ok args /\
    length args = 1 /\ index args 0 = Ok a /\ assertArray32 a = Some h.
Proof.
  unfold Worker.ValidateTask. go_outcome.
  destruct (Nat.ltb_spec (length (TaskRequest.Payload t)) 4) as [| Hlen];
    [discriminate |].
  rewrite slice_to_ok, slice_from_ok by lia. go_outcome.
  destruct (negb (Worker.equalBytes _ _)); [discriminate |]. go_outcome.
  destruct (ignoreErr _) as [enc | e | msg]; try discriminate. go_outcome.
  destruct (negb (_ =? _)); [discriminate |]. go_outcome.
  destruct (Abi.Unpack _ _) as [args | e | msg] eqn:HU; go_outcome;
    try discriminate.
  destruct (Nat.eqb_spec (length args) 1) as [Hargs | Hargs]; cbn [negb];
    go_outcome; [| discriminate].
  destruct (index args 0) as [a | e | msg] eqn:Hidx; try discriminate.
  destruct (assertArray32 a) as [h |] eqn:Has; go_outcome; [| discriminate].
  intros _. exists args, a, h. auto.
Qed.

(** For a method whose inputs all have a type among [bytes1] to
    [bytes32] and [uint256], however many they are, [ValidateTask] accepts
    a request only if the method has exactly one input, of type [bytes32],
    the payload is exactly 36 bytes long, and its first four bytes are the
    method's selector. With the [uint256] and two-argument interfaces of
    the tests no payload is accepted. Interfaces with inputs of other
    types are not covered. *)
Theorem ValidateTask_accepts_only_bytes32
    (tw : Worker.TaskWorker) (t : TaskRequest.t) :
  validInputs (Abi.Inputs (Worker.method tw)) ->
  outcome (Worker.ValidateTask tw t) = Ok tt ->
  (exists name, Abi.Inputs (Worker.method tw) = [bytes32Arg name]) /\
  length (TaskRequest.Payload t) = 36 /\
  firstn 4 (TaskRequest.Payload t) = Abi.ID (Worker.method tw).
Proof.
  intros _ Hok.
  destruct (Worker_ValidateTask_Ok tw t Hok) as (args & a & h & HU & Hl & Hi & Ha).
  destruct (single_array32_inputs _ _ _ _ _ HU Hl Hi Ha) as [name Hin].
  split; [exists name; exact Hin |].
  rewrite (Worker_ValidateTask_bytes32 tw t name Hin) in Hok. cbv zeta in Hok.
  destruct (Nat.ltb_spec (length (TaskRequest.Payload t)) 4); [discriminate |].
  destruct (Worker.equalBytes _ _) eqn:E; cbn [negb] in Hok; [| discriminate].
  apply equalBytes_eq in E.
  destruct (Nat.eqb_spec (length (TaskRequest.Payload t) - 4) 32);
    cbn [negb] in Hok; [| discriminate].
  split; [lia | exact E].
Qed.

(** The theorem at the request of the repository's test. *)
Lemma ValidateTask_accepts_only_bytes32_witness :
  validInputs (Abi.Inputs (Worker.method dummyWorker)) /\
  outcome (Worker.ValidateTask dummyWorker testRequest) = Ok tt /\
  length (TaskRequest.Payload testRequest) = 36 /\
  firstn 4 (TaskRequest.Payload testRequest)
  = Abi.ID (Worker.method dummyWorker).
Proof.
  assert (Hok : outcome (Worker.ValidateTask dummyWorker testRequest) = Ok tt)
    by (vm_compute; reflexivity).
  assert (Hv : validInputs (Abi.Inputs (Worker.method dummyWorker)))
    by (repeat constructor; cbn; lia).
  split; [exact Hv |]. split; [exact Hok |].
  exact (proj2 (ValidateTask_accepts_only_bytes32 dummyWorker testRequest
                  Hv Hok)).
Defined.



(** The result of a successful [HandleTask] is always 64 bytes of
    lower-case hexadecimal text. *)
Theorem HandleTask_result_is_hex_digest
    (tw : Worker.TaskWorker) (t : TaskRequest.t) (r : TaskResponse.t) :
  outcome (Worker.HandleTask tw t) = Ok r ->
  length (TaskResponse.Result r) = 64 /\
  forallb lowerHex (TaskResponse.Result r) = true.
Proof.
  intros Hok. destruct (Worker_HandleTask_Ok tw t r Hok) as (_ & _ & ->).
  cbn [TaskResponse.Result]. split.
  - rewrite of_string_length, EncodeToString_length, Sum256_length.
    reflexivity.
  - apply EncodeToString_lowerHex.
Qed.

(** The theorem at the request of the repository's test. *)
Lemma HandleTask_result_is_hex_digest_witness :
  exists r,
    outcome (Worker.HandleTask dummyWorker testRequest) = Ok r /\
    length (TaskResponse.Result r) = 64 /\
    forallb lowerHex (TaskResponse.Result r) = true.
Proof.
  assert (Hok : outcome (Worker.HandleTask dummyWorker testRequest) =
                Ok {| TaskResponse.TaskId := Bytes.of_string "test-task-id";
                      TaskResponse.Result :=
                        Bytes.of_string
                          "352535ac34137af8cd7d501dfa99c4bb4a43a01088f32ee7230a4c66f3689003" |})
    by (vm_compute; reflexivity).
  eexists. split; [exact Hok |].
  exact (HandleTask_result_is_hex_digest dummyWorker testRequest _ Hok).
Defined.

(** ** The worker [NewTaskWorker] builds *)


Lemma fold_addMethod_registered (todo : list Abi.Field) :
  forall (seen : list Abi.Field) (methods : gmap string Abi.Method),
    map_Forall (fun k m => exists field,
                    In field seen /\
                    m = Abi.NewMethod k (Abi.FieldName field)
                          (Abi.FieldInputs field)) methods ->
    map_Forall (fun k m => exists field,
                    In field (seen ++ todo)%list /\
                    m = Abi.NewMethod k (Abi.FieldName field)
                          (Abi.FieldInputs field))
      (fold_left Abi.addMethod todo methods).
Proof.
  induction todo as [| f todo IH]; intros seen methods Hm; cbn [fold_left].
  - rewrite app_nil_r. exact Hm.
  - replace (seen ++ f :: todo)%list with ((seen ++ [f]) ++ todo)%list
      by (rewrite <- app_assoc; reflexivity).
    apply IH. unfold Abi.addMethod. apply map_Forall_insert_2.
    + exists f. split; [apply in_or_app; right; left; reflexivity |].
      reflexivity.
    + intros k m Hk. destruct (Hm k m Hk) as (field & Hin & ->).
      exists field. split; [apply in_or_app; left; exact Hin | reflexivity].
Qed.

Lemma NewTaskWorker_Ok (cfg : Worker.TaskWorkerConfig)
    (tw : Worker.TaskWorker) :
  Worker.NewTaskWorker cfg = Ok tw ->
  Abi.unmarshalFields (Worker.ABIJSON cfg) = Ok tt /\
  Worker.abi tw =
    {| Abi.Methods := fold_left Abi.addMethod (Worker.ABIJSON cfg) ∅ |} /\
  Abi.Methods (Worker.abi tw) !! Worker.Method cfg = Some (Worker.method tw).
Proof.
  unfold Worker.NewTaskWorker, Abi.JSON.
  destruct (Abi.unmarshalFields (Worker.ABIJSON cfg)) as [[] | |] eqn:E;
    cbn [andThen]; try discriminate.
  destruct (_ !! Worker.Method cfg) as [m |] eqn:L; [| discriminate].
  intros H. injection H as <-. cbn [Worker.abi Worker.method Abi.Methods].
  auto.
Qed.

(** For a description whose input types are all among [bytes1] to
    [bytes32] and [uint256], a worker returned by [NewTaskWorker] keeps the
    method registered under the configured name in its parsed interface.
    That method carries the configured name, comes from an entry of the
    description, has input types of the same kinds, has the signature
    [raw(type,...,type)] and has as its selector the first four bytes of
    the Keccak-256 digest of the signature, so the selector is always four
    bytes long. Descriptions with other types are not covered. *)
Theorem NewTaskWorker_method_invariant
    (cfg : Worker.TaskWorkerConfig) (tw : Worker.TaskWorker) :
  Forall (fun f => validInputs (Abi.FieldInputs f)) (Worker.ABIJSON cfg) ->
  Worker.NewTaskWorker cfg = Ok tw ->
  let m := Worker.method tw in
  Abi.Methods (Worker.abi tw) !! Worker.Method cfg = Some m /\
  Abi.Name m = Worker.Method cfg /\
  (exists field,
      In field (Worker.ABIJSON cfg) /\
      Abi.RawName m = Abi.FieldName field /\
      Abi.Inputs m = Abi.FieldInputs field) /\
  validInputs (Abi.Inputs m) /\
  Abi.Sig m =
    Abi.RawName m ++ "(" ++
    String.concat "," (map (fun input => Abi.String (Abi.ArgType input))
                         (Abi.Inputs m)) ++ ")" /\
  Abi.ID m = firstn 4 (Keccak.Keccak256 (Bytes.of_string (Abi.Sig m))) /\
  length (Abi.ID m) = 4.
Proof.
  intros _ Htw m.
  pose proof (NewTaskWorker_valid cfg tw Htw) as Hvalid.
  destruct (NewTaskWorker_Ok cfg tw Htw) as (_ & Habi & Hlook).
  split; [exact Hlook |].
  rewrite Habi in Hlook. cbn [Abi.Methods] in Hlook.
  pose proof (fold_addMethod_registered (Worker.ABIJSON cfg) [] ∅
                (map_Forall_empty _)) as HF.
  cbn [app] in HF. destruct (HF _ _ Hlook) as (field & Hin & Hm).
  fold m in Hm, Hvalid. rewrite Hm. cbn [Abi.NewMethod Abi.Name Abi.RawName
    Abi.Inputs Abi.Sig Abi.ID].
  split; [reflexivity |].
  split; [exists field; auto |].
  split; [rewrite Hm in Hvalid; exact Hvalid |].
  split; [reflexivity |]. split; [reflexivity |].
  rewrite length_take, Keccak256_length. reflexivity.
Qed.

(** The theorem at the configuration [main] uses. *)
Lemma NewTaskWorker_method_invariant_witness :
  Forall (fun f => validInputs (Abi.FieldInputs f))
    (Worker.ABIJSON Worker.workerCfg) /\
  Worker.NewTaskWorker Worker.workerCfg = Ok dummyWorker /\
  Abi.Name (Worker.method dummyWorker) = "dummy" /\
  length (Abi.ID (Worker.method dummyWorker)) = 4.
Proof.
  assert (Htw : Worker.NewTaskWorker Worker.workerCfg = Ok dummyWorker)
    by (vm_compute; reflexivity).
  assert (Hv : Forall (fun f => validInputs (Abi.FieldInputs f))
                 (Worker.ABIJSON Worker.workerCfg))
    by (repeat constructor; cbn; lia).
  split; [exact Hv |]. split; [exact Htw |].
  destruct (NewTaskWorker_method_invariant Worker.workerCfg dummyWorker
              Hv Htw)
    as (_ & Hname & _ & _ & _ & _ & Hlen).
  split; [exact Hname | exact Hlen].
Defined.




Lemma resolve_fresh (fuel : nat) (rawName : string)
    (methods : gmap string Abi.Method) :
  methods !! rawName = None ->
  Abi.ResolveNameConflict fuel rawName
    (fun s => bool_decide (is_Some (methods !! s))) = rawName.
Proof.
  intros H. unfold Abi.ResolveNameConflict. rewrite H.
  rewrite bool_decide_eq_false_2; [reflexivity |].
  intros [x Hx]. discriminate Hx.
Qed.

Lemma fold_addMethod_lookup (fields : list Abi.Field) :
  forall (methods : gmap string Abi.Method) (k : string),
    NoDup (map Abi.FieldName fields) ->
    (forall f, In f fields -> methods !! Abi.FieldName f = None) ->
    fold_left Abi.addMethod fields methods !! k =
    match find (named k) fields with
    | Some f => Some (Abi.NewMethod k k (Abi.FieldInputs f))
    | None => methods !! k
    end.
Proof.
  induction fields as [| f rest IH]; intros methods k Hnd Hfresh;
    cbn [fold_left find]; [reflexivity |].
  cbn [map] in Hnd. apply NoDup_cons in Hnd as [Hnotin Hnd].
  assert (Hadd : Abi.addMethod methods f =
                 <[Abi.FieldName f :=
                     Abi.NewMethod (Abi.FieldName f) (Abi.FieldName f)
                       (Abi.FieldInputs f)]> methods).
  { unfold Abi.addMethod. rewrite resolve_fresh; [reflexivity |].
    apply Hfresh. left. reflexivity. }
  rewrite Hadd. rewrite IH; [| exact Hnd |].
  2:{ intros g Hg. rewrite lookup_insert_ne.
      - apply Hfresh. right. exact Hg.
      - intros Heq. apply Hnotin. rewrite Heq.
        apply list_elem_of_In, in_map, Hg. }
  unfold named at 2. destruct (String.eqb_spec (Abi.FieldName f) k) as [E | E].
  - subst k. destruct (find _ rest) as [g |] eqn:Hfind.
    + apply find_some in Hfind as [Hg Hname]. unfold named in Hname.
      apply String.eqb_eq in Hname. exfalso. apply Hnotin.
      rewrite <- Hname. apply list_elem_of_In, in_map, Hg.
    + apply lookup_insert_eq.
  - destruct (find _ rest); [reflexivity |].
    apply lookup_insert_ne. exact E.
Qed.

Lemma NewType_cases (t : Abi.Type_) :
  (validType t /\ Abi.NewType t = Ok t) \/
  (~ validType t /\
   Abi.NewType t = Err (Errorf "unsupported arg type: %s" [str (Abi.String t)])).
Proof.
  destruct t as [n |]; unfold Abi.NewType, validType; [| left; auto].
  destruct (Nat.leb_spec 1 n), (Nat.leb_spec n 32); cbn [andb];
    first [left; split; [lia | reflexivity]
          | right; split; [lia | reflexivity]].
Qed.

Lemma unmarshalInputs_ok (inputs : list Abi.Argument) :
  validInputs inputs -> Abi.unmarshalInputs inputs = Ok tt.
Proof.
  induction 1 as [| arg rest Ha _ IH]; cbn [Abi.unmarshalInputs];
    [reflexivity |].
  destruct (NewType_cases (Abi.ArgType arg)) as [[_ E] | [Hn _]];
    [| contradiction].
  rewrite E. exact IH.
Qed.

Lemma unmarshalFields_ok (fields : list Abi.Field) :
  Forall (fun f => validInputs (Abi.FieldInputs f)) fields ->
  Abi.unmarshalFields fields = Ok tt.
Proof.
  induction 1 as [| f rest Hf _ IH]; cbn [Abi.unmarshalFields];
    [reflexivity |].
  rewrite (unmarshalInputs_ok _ Hf). exact IH.
Qed.

(** When every input type of the description is supported and no two
    entries share a name, [NewTaskWorker] succeeds exactly when an entry
    has the configured name: the worker then holds the method built from
    that entry, under its own name; otherwise the constructor returns the
    method-not-found error. *)
Theorem NewTaskWorker_without_overloads (cfg : Worker.TaskWorkerConfig) :
  Forall (fun f => validInputs (Abi.FieldInputs f)) (Worker.ABIJSON cfg) ->
  NoDup (map Abi.FieldName (Worker.ABIJSON cfg)) ->
  Worker.NewTaskWorker cfg =
  match find (named (Worker.Method cfg)) (Worker.ABIJSON cfg) with
  | Some field =>
      Ok {| Worker.abi :=
              {| Abi.Methods :=
                   fold_left Abi.addMethod (Worker.ABIJSON cfg) ∅ |};
            Worker.method :=
              Abi.NewMethod (Worker.Method cfg) (Worker.Method cfg)
                (Abi.FieldInputs field) |}
  | None => Err (Errorf "ABI method %q not found" [str (Worker.Method cfg)])
  end.
Proof.
  intros Hv Hnd. unfold Worker.NewTaskWorker, Abi.JSON.
  rewrite (unmarshalFields_ok _ Hv). cbn [andThen Abi.Methods].
  rewrite (fold_addMethod_lookup _ ∅ (Worker.Method cfg) Hnd)
    by (intros; apply lookup_empty).
  destruct (find _ _); [reflexivity |].
  rewrite lookup_empty. reflexivity.
Qed.

(** The theorem at the configuration [main] uses. *)
Lemma NewTaskWorker_without_overloads_witness :
  Forall (fun f => validInputs (Abi.FieldInputs f))
    (Worker.ABIJSON Worker.workerCfg) /\
  NoDup (map Abi.FieldName (Worker.ABIJSON Worker.workerCfg)) /\
  Worker.NewTaskWorker Worker.workerCfg =
  Ok {| Worker.abi :=
          {| Abi.Methods :=
               fold_left Abi.addMethod (Worker.ABIJSON Worker.workerCfg) ∅ |};
        Worker.method := Abi.NewMethod "dummy" "dummy" [bytes32Arg "txHash"] |}.
Proof.
  assert (Hv : Forall (fun f => validInputs (Abi.FieldInputs f))
                 (Worker.ABIJSON Worker.workerCfg)).
  { repeat constructor; cbn; lia. }
  assert (Hnd : NoDup (map Abi.FieldName (Worker.ABIJSON Worker.workerCfg))).
  { apply NoDup_singleton. }
  split; [exact Hv |]. split; [exact Hnd |].
  exact (NewTaskWorker_without_overloads Worker.workerCfg Hv Hnd).
Defined.

(** [equalBytes], which compares the lengths and then the slices as
    strings, returns [true] exactly on equal slices. *)
Theorem equalBytes_decides_equality (a b : list byte) :
  (Worker.equalBytes a b = true <-> a = b) /\
  (Worker.equalBytes a b = false <-> a <> b).
Proof.
  pose proof (equalBytes_eq a b) as H. split; [exact H |].
  destruct (Worker.equalBytes a b); split; intros H'.
  - discriminate H'.
  - exfalso. apply H'. apply H. reflexivity.
  - intros Heq. apply H in Heq. discriminate Heq.
  - reflexivity.
Qed.



(** ** What the configurable worker logs and how it fails *)

Lemma index_not_Err (args : list any) (i : nat) (e : error) :
  index args i <> Err e.
Proof. unfold index. destruct (nth_error args i); discriminate. Qed.

Lemma slice_from_not_Err (s : list byte) (n : nat) (e : error) :
  slice_from s n <> Err e.
Proof. unfold slice_from. destruct (n <=? length s); discriminate. Qed.

Ltac go_absurd :=
  match goal with
  | H : index _ _ = Err _ |- _ => exfalso; exact (index_not_Err _ _ _ H)
  | H : slice_from _ _ = Err _ |- _ =>
      exfalso; exact (slice_from_not_Err _ _ _ H)
  end.

(** Every failure of [HandleTask] is logged: when the method returns an
    error its log is the opening record followed by exactly one record at
    error level. A successful call logs at info level only, and
    [ValidateTask] writes one info record whatever it returns. *)
Theorem HandleTask_logs_failures
    (tw : Worker.TaskWorker) (t : TaskRequest.t) :
  let opening :=
    Logw Info "Handling task"
      [("task_id", bytes (TaskRequest.TaskId t));
       ("payload", bytes (TaskRequest.Payload t))] in
  (forall e, outcome (Worker.HandleTask tw t) = Err e ->
             exists format args,
               logs (Worker.HandleTask tw t)
               = [opening; Logf Error format args]) /\
  (forall r, outcome (Worker.HandleTask tw t) = Ok r ->
             Forall (fun entry => entryLevel entry = Info)
               (logs (Worker.HandleTask tw t))) /\
  logs (Worker.ValidateTask tw t) =
    [Logw Info "Validating task" [("task_id", bytes (TaskRequest.TaskId t))]].
Proof.
  intros opening. split; [| split; [| apply Worker_ValidateTask_logs]].
  - unfold Worker.HandleTask. go_cases; intros cause H; try discriminate H;
      try go_absurd; do 2 eexists; reflexivity.
  - unfold Worker.HandleTask. go_cases; intros resp H; try discriminate H;
      repeat constructor.
Qed.

(** The theorem at the three-byte payload of the repository's test. *)
Lemma HandleTask_logs_failures_witness :
  outcome (Worker.HandleTask dummyWorker shortRequest)
  = Err (Errorf "payload too short" []) /\
  exists format args,
    logs (Worker.HandleTask dummyWorker shortRequest) =
    [Logw Info "Handling task"
       [("task_id", bytes (TaskRequest.TaskId shortRequest));
        ("payload", bytes (TaskRequest.Payload shortRequest))];
     Logf Error format args].
Proof.
  assert (Herr : outcome (Worker.HandleTask dummyWorker shortRequest)
                 = Err (Errorf "payload too short" []))
    by (vm_compute; reflexivity).
  split; [exact Herr |].
  exact (proj1 (HandleTask_logs_failures dummyWorker shortRequest) _ Herr).
Defined.

Ltac go_eval := cbn [Go.bind lift log fail ret call app].



(** ** The two local-compute workers compared *)

Lemma HasPrefix_equalBytes (a b : list byte) :
  length a = length b ->
  InlineWorker.HasPrefix (Hex.EncodeToString a) (Hex.EncodeToString b)
  = Worker.equalBytes a b.
Proof.
  intros Hlen.
  pose proof (HasPrefix_hex a b Hlen) as H1.
  pose proof (equalBytes_eq a b) as H2.
  destruct (InlineWorker.HasPrefix _ _), (Worker.equalBytes a b);
    try reflexivity.
  - symmetry. apply H2, H1. reflexivity.
  - apply H1, H2. reflexivity.
Qed.

(** The worker that parses its interface on every call and the worker
    [main] configures return the same result or error from [HandleTask] on
    every request, and from [ValidateTask] on every payload of at least 4
    bytes. On a shorter payload the former returns the selector error
    where the latter returns the short-payload error. *)
Theorem InlineWorker_agrees_with_Worker
    (tw : Worker.TaskWorker) (t : TaskRequest.t) :
  Worker.NewTaskWorker Worker.workerCfg = Ok tw ->
  outcome (InlineWorker.HandleTask t) = outcome (Worker.HandleTask tw t) /\
  (4 <= length (TaskRequest.Payload t) ->
   outcome (InlineWorker.ValidateTask t)
   = outcome (Worker.ValidateTask tw t)) /\
  (length (TaskRequest.Payload t) < 4 ->
   outcome (InlineWorker.ValidateTask t) = Err ErrSelectorMismatch /\
   outcome (Worker.ValidateTask tw t) = Err ErrShortPayload).
Proof.
  intros Htw. apply NewTaskWorker_inv in Htw. subst tw.
  split; [apply Inline_HandleTask_eq |].
  rewrite Inline_ValidateTask_outcome,
    (Worker_ValidateTask_bytes32 dummyWorker t "txHash" eq_refl).
  cbv zeta. change (Abi.ID (Worker.method dummyWorker)) with (Abi.ID dummyMethod).
  rewrite dummyMethod_ID.
  split; intros Hlen.
  - destruct (Nat.ltb_spec (length (TaskRequest.Payload t)) 4); [lia |].
    rewrite HasPrefix_equalBytes
      by (rewrite length_take; unfold dummySelector; cbn [length]; lia).
    reflexivity.
  - destruct (Nat.ltb_spec (length (TaskRequest.Payload t)) 4); [| lia].
    split; reflexivity.
Qed.

(** The theorem at the request of the repository's test. *)
Lemma InlineWorker_agrees_with_Worker_witness :
  Worker.NewTaskWorker Worker.workerCfg = Ok dummyWorker /\
  outcome (InlineWorker.HandleTask testRequest)
  = outcome (Worker.HandleTask dummyWorker testRequest) /\
  outcome (InlineWorker.ValidateTask shortRequest) = Err ErrSelectorMismatch.
Proof.
  assert (Htw : Worker.NewTaskWorker Worker.workerCfg = Ok dummyWorker)
    by (vm_compute; reflexivity).
  assert (Hlen : length (TaskRequest.Payload shortRequest) < 4) by (cbn; lia).
  split; [exact Htw |]. split.
  - exact (proj1 (InlineWorker_agrees_with_Worker dummyWorker testRequest Htw)).
  - exact (proj1 (proj2 (proj2 (InlineWorker_agrees_with_Worker dummyWorker
                                  shortRequest Htw)) Hlen)).
Defined.

(** ** The worker of cmd/main.go on hexadecimal text *)

Lemma of_string_to_string (b : list byte) :
  Bytes.of_string (Bytes.to_string b) = b.
Proof. apply list_byte_of_string_of_list_byte. Qed.

Lemma HexWorker_outcome (t : TaskRequest.t) :
  outcome (HexWorker.HandleTask t) =
  match HexDecode.Decode (TaskRequest.Payload t) with
  | Ok payload =>
      if length payload <? 4 then Panic "slice bounds out of range"
      else if length payload =? 4 then
        Err (Errorf "failed to unpack: %w" [err ErrUnpackEmpty])
      else if length payload <? 36 then
        Err (Errorf "failed to unpack: %w"
               [err (ErrUnpackShort (length payload - 4) 32)])
      else
        Ok {| TaskResponse.TaskId := TaskRequest.TaskId t;
              TaskResponse.Result :=
                Bytes.of_string
                  (Hex.EncodeToString
                     (Sha256.Sum256 (firstn 32 (skipn 4 payload)))) |}
  | Err e => Err (Errorf "invalid hex string: %w" [err e])
  | Panic msg => Panic msg
  end.
Proof.
  unfold HexWorker.HandleTask. rewrite JSON_hex. go_outcome. cbv zeta.
  unfold HexDecode.DecodeString. rewrite of_string_to_string.
  destruct (HexDecode.Decode _) as [payload | e | msg]; go_outcome;
    try reflexivity.
  cbn [Abi.Methods]. rewrite lookup_hex. go_outcome.
  change (Abi.Inputs hexMethod) with [bytes32Arg ""].
  unfold slice_from.
  destruct (Nat.ltb_spec (length payload) 4) as [H4 | H4].
  { destruct (Nat.leb_spec 4 (length payload)); [lia | reflexivity]. }
  destruct (Nat.leb_spec 4 (length payload)); [| lia]. go_outcome.
  destruct (Nat.eqb_spec (length payload) 4) as [E4 | E4].
  { rewrite Unpack_bytes32_empty by (rewrite length_drop; lia).
    go_outcome. reflexivity. }
  destruct (Nat.ltb_spec (length payload) 36) as [H36 | H36].
  { rewrite Unpack_bytes32_short by (rewrite length_drop; lia).
    go_outcome. unfold ErrUnpackShort, len. rewrite length_drop.
    reflexivity. }
  rewrite Unpack_bytes32_ok by (rewrite length_drop; lia).
  cbn [length Nat.eqb negb]. go_outcome.
  cbn [index nth_error assertArray32].
  rewrite length_take, length_drop.
  replace (32 `min` (length payload - 4)) with 32 by lia.
  cbn [Nat.eqb]. go_outcome. reflexivity.
Qed.

Lemma Decode_EncodeToString (src : list byte) :
  HexDecode.Decode (Bytes.of_string (Hex.EncodeToString src)) = Ok src.
Proof. exact (DecodeString_EncodeToString src). Qed.

(** The worker of cmd/main.go, given the hexadecimal text of at least 36
    bytes, answers with the hexadecimal SHA-256 digest of the 32 bytes
    that follow the first four: the selector and anything after the
    argument do not enter the result. *)
Theorem HexWorker_digest_of_argument
    (taskId metadata decoded : list byte) :
  36 <= length decoded ->
  outcome (HexWorker.HandleTask
             (TaskRequest.mk taskId
                (Bytes.of_string (Hex.EncodeToString decoded)) metadata)) =
  Ok {| TaskResponse.TaskId := taskId;
        TaskResponse.Result :=
          Bytes.of_string
            (Hex.EncodeToString
               (Sha256.Sum256 (firstn 32 (skipn 4 decoded)))) |}.
Proof.
  intros Hlen. rewrite HexWorker_outcome.
  cbn [TaskRequest.Payload TaskRequest.TaskId].
  rewrite Decode_EncodeToString.
  destruct (Nat.ltb_spec (length decoded) 4); [lia |].
  destruct (Nat.eqb_spec (length decoded) 4); [lia |].
  destruct (Nat.ltb_spec (length decoded) 36); [lia | reflexivity].
Qed.

(** The theorem at the payload of the repository's test, as text. *)
Lemma HexWorker_digest_of_argument_witness :
  36 <= length (dummySelector ++ testValue)%list /\
  outcome (HexWorker.HandleTask
             (TaskRequest.mk (Bytes.of_string "test-task-id")
                (Bytes.of_string
                   (Hex.EncodeToString (dummySelector ++ testValue)%list))
                [])) =
  Ok {| TaskResponse.TaskId := Bytes.of_string "test-task-id";
        TaskResponse.Result :=
          Bytes.of_string
            (Hex.EncodeToString
               (Sha256.Sum256
                  (firstn 32 (skipn 4 (dummySelector ++ testValue)%list)))) |}.
Proof.
  assert (Hlen : 36 <= length (dummySelector ++ testValue)%list)
    by (cbn; lia).
  split; [exact Hlen |].
  exact (HexWorker_digest_of_argument (Bytes.of_string "test-task-id") []
           (dummySelector ++ testValue)%list Hlen).
Defined.

(** The worker of cmd/main.go slices the decoded payload without checking
    its length: on the hexadecimal text of fewer than 4 bytes, which its
    [ValidateTask] accepts, [HandleTask] panics with a slice bound out of
    range instead of returning an error. *)
Theorem HexWorker_short_payload_panics
    (taskId metadata decoded : list byte) :
  length decoded < 4 ->
  let t := TaskRequest.mk taskId
             (Bytes.of_string (Hex.EncodeToString decoded)) metadata in
  outcome (HexWorker.ValidateTask t) = Ok tt /\
  outcome (HexWorker.HandleTask t) = Panic "slice bounds out of range".
Proof.
  intros Hlen t. split; [reflexivity |].
  rewrite HexWorker_outcome. cbn [TaskRequest.Payload t].
  rewrite Decode_EncodeToString.
  destruct (Nat.ltb_spec (length decoded) 4); [reflexivity | lia].
Qed.

(** The theorem at the text of three bytes. *)
Lemma HexWorker_short_payload_panics_witness :
  length [x01; x02; x03] < 4 /\
  outcome (HexWorker.HandleTask
             (TaskRequest.mk []
                (Bytes.of_string (Hex.EncodeToString [x01; x02; x03])) []))
  = Panic "slice bounds out of range".
Proof.
  assert (Hlen : length [x01; x02; x03] < 4) by (cbn; lia).
  split; [exact Hlen |].
  exact (proj2 (HexWorker_short_payload_panics [] [] [x01; x02; x03] Hlen)).
Defined.

Lemma Decode_fails (n : nat) :
  forall src : list byte,
    length src <= n ->
    Nat.odd (length src) = true \/
    (exists c, In c src /\ Hex.fromHexChar c = None) ->
    exists e, HexDecode.Decode src = Err e.
Proof.
  induction n as [| n IH]; intros src Hlen Hbad.
  - destruct src; [| cbn in Hlen; lia].
    destruct Hbad as [Hodd | (c & [] & _)]. discriminate Hodd.
  - destruct src as [| p [| q rest]].
    + destruct Hbad as [Hodd | (c & [] & _)]. discriminate Hodd.
    + cbn [HexDecode.Decode]. destruct (Hex.fromHexChar p); eexists;
        reflexivity.
    + cbn [HexDecode.Decode].
      destruct (Hex.fromHexChar p) as [a |] eqn:Ep;
        [| eexists; reflexivity].
      destruct (Hex.fromHexChar q) as [b |] eqn:Eq;
        [| eexists; reflexivity].
      destruct (IH rest) as [e He].
      * cbn [length] in Hlen. lia.
      * destruct Hbad as [Hodd | (c & Hc & Hnone)].
        -- left. cbn [length] in Hodd.
           rewrite Nat.odd_succ, Nat.even_succ in Hodd. exact Hodd.
        -- right. exists c. split; [| exact Hnone].
           destruct Hc as [<- | [<- | Hc]]; [congruence | congruence |].
           exact Hc.
      * rewrite He. eexists. reflexivity.
Qed.

(** The worker of cmd/main.go returns the invalid-hex-string error,
    wrapping the decoder's error, whenever the payload has odd length or
    contains a byte that is not a hexadecimal digit. *)
Theorem HexWorker_rejects_malformed_hex (t : TaskRequest.t) :
  Nat.odd (length (TaskRequest.Payload t)) = true \/
  (exists c, In c (TaskRequest.Payload t) /\ Hex.fromHexChar c = None) ->
  exists e,
    outcome (HexWorker.HandleTask t) =
    Err (Errorf "invalid hex string: %w" [err e]).
Proof.
  intros Hbad.
  destruct (Decode_fails _ _ (Nat.le_refl _) Hbad) as [e He].
  exists e. rewrite HexWorker_outcome, He. reflexivity.
Qed.

(** The theorem at a payload of three characters. *)
Lemma HexWorker_rejects_malformed_hex_witness :
  Nat.odd (length (Bytes.of_string "abc")) = true /\
  exists e,
    outcome (HexWorker.HandleTask
               (TaskRequest.mk [] (Bytes.of_string "abc") []))
    = Err (Errorf "invalid hex string: %w" [err e]).
Proof.
  assert (Hodd : Nat.odd (length (Bytes.of_string "abc")) = true)
    by reflexivity.
  split; [exact Hodd |].
  exact (HexWorker_rejects_malformed_hex
           (TaskRequest.mk [] (Bytes.of_string "abc") [])
           (or_introl Hodd)).
Defined.

(** ** The request of the remote-forward worker *)

Lemma append_assoc (s1 s2 s3 : string) : (s1 ++ s2) ++ s3 = s1 ++ (s2 ++ s3).
Proof.
  induction s1 as [| c s1 IH]; [reflexivity |].
  change (String c ((s1 ++ s2) ++ s3) = String c (s1 ++ (s2 ++ s3))).
  f_equal. exact IH.
Qed.

Lemma append_length (s1 s2 : string) :
  String.length (s1 ++ s2) = String.length s1 + String.length s2.
Proof.
  induction s1 as [| c s1 IH]; [reflexivity |].
  change (S (String.length (s1 ++ s2)) =
          S (String.length s1 + String.length s2)).
  f_equal. exact IH.
Qed.

Lemma rpcRequest_text (txHash : list byte) :
  rpcRequest txHash =
  Bytes.of_string
    (requestPrefix ++ Hex.EncodeToString txHash ++ requestSuffix).
Proof.
  unfold rpcRequest. f_equal.
  generalize (Hex.EncodeToString txHash). intros h.
  cbv -[append]. cbn [append]. rewrite !append_assoc. cbn [append].
  reflexivity.
Qed.

(** The remote-forward worker, on a payload of fewer than 36 bytes, fails
    before it contacts the remote service: the logs and the error are
    those of the decoding step (payload too short below 4 bytes, the
    unpacker's empty-input error at 4, its insufficient-length error in
    between) and are the same for every endpoint. *)
Theorem ForwardWorker_decoding_failures
    (Post : string -> string -> list byte -> result ForwardWorker.Response)
    (tw : ForwardWorker.TaskWorker) (t : TaskRequest.t) :
  let n := length (TaskRequest.Payload t) in
  let opening :=
    Logw Info "Handling task"
      [("task_id", bytes (TaskRequest.TaskId t));
       ("payload_length", len (TaskRequest.Payload t))] in
  (n < 4 ->
   ForwardWorker.HandleTask Post tw t =
   ([opening;
     Logw Error "Payload too short"
       [("min_required", int 4); ("actual", len (TaskRequest.Payload t))]],
    Err (Errorf "payload too short: expected at least %d bytes" [int 4]))) /\
  (n = 4 ->
   ForwardWorker.HandleTask Post tw t =
   ([opening;
     Logw Error "Failed to unpack method arguments"
       [("error", err ErrUnpackEmpty)]],
    Err (Errorf "failed to unpack method arguments: %w"
           [err ErrUnpackEmpty]))) /\
  (4 < n < 36 ->
   ForwardWorker.HandleTask Post tw t =
   ([opening;
     Logw Error "Failed to unpack method arguments"
       [("error", err (ErrUnpackShort (n - 4) 32))]],
    Err (Errorf "failed to unpack method arguments: %w"
           [err (ErrUnpackShort (n - 4) 32)]))) /\
  (n < 36 ->
   forall Post',
     ForwardWorker.HandleTask Post' tw t = ForwardWorker.HandleTask Post tw t).
Proof.
  intros n opening.
  assert (H4 : forall P, n < 4 ->
             ForwardWorker.HandleTask P tw t =
             ([opening;
               Logw Error "Payload too short"
                 [("min_required", int 4);
                  ("actual", len (TaskRequest.Payload t))]],
              Err (Errorf "payload too short: expected at least %d bytes"
                     [int 4]))).
  { intros P Hn. unfold ForwardWorker.HandleTask, ForwardWorker.getParsedABI.
    rewrite JSON_contract. go_eval. cbn [Abi.Methods]. rewrite lookup_cert.
    unfold ForwardWorker.methodSelectorLength.
    destruct (Nat.ltb_spec (length (TaskRequest.Payload t)) 4);
      [reflexivity | lia]. }
  assert (H5 : forall P, n = 4 ->
             ForwardWorker.HandleTask P tw t =
             ([opening;
               Logw Error "Failed to unpack method arguments"
                 [("error", err ErrUnpackEmpty)]],
              Err (Errorf "failed to unpack method arguments: %w"
                     [err ErrUnpackEmpty]))).
  { intros P Hn. unfold ForwardWorker.HandleTask, ForwardWorker.getParsedABI.
    rewrite JSON_contract. go_eval. cbn [Abi.Methods]. rewrite lookup_cert.
    unfold ForwardWorker.methodSelectorLength.
    destruct (Nat.ltb_spec (length (TaskRequest.Payload t)) 4); [lia |].
    rewrite slice_from_ok by lia. go_eval.
    change (Abi.Inputs certMethod) with [bytes32Arg "txHash"].
    rewrite Unpack_bytes32_empty by (rewrite length_drop; lia).
    reflexivity. }
  assert (H6 : forall P, 4 < n < 36 ->
             ForwardWorker.HandleTask P tw t =
             ([opening;
               Logw Error "Failed to unpack method arguments"
                 [("error", err (ErrUnpackShort (n - 4) 32))]],
              Err (Errorf "failed to unpack method arguments: %w"
                     [err (ErrUnpackShort (n - 4) 32)]))).
  { intros P Hn. unfold ForwardWorker.HandleTask, ForwardWorker.getParsedABI.
    rewrite JSON_contract. go_eval. cbn [Abi.Methods]. rewrite lookup_cert.
    unfold ForwardWorker.methodSelectorLength.
    destruct (Nat.ltb_spec (length (TaskRequest.Payload t)) 4); [lia |].
    rewrite slice_from_ok by lia. go_eval.
    change (Abi.Inputs certMethod) with [bytes32Arg "txHash"].
    rewrite Unpack_bytes32_short by (rewrite length_drop; lia).
    unfold ErrUnpackShort, len. rewrite length_drop. reflexivity. }
  split; [apply H4 |]. split; [apply H5 |]. split; [apply H6 |].
  intros Hn Post'.
  destruct (Nat.lt_ge_cases n 4) as [Hlt | Hge].
  { rewrite (H4 Post' Hlt), (H4 Post Hlt). reflexivity. }
  destruct (Nat.eq_dec n 4) as [Heq | Hne].
  { rewrite (H5 Post' Heq), (H5 Post Heq). reflexivity. }
  assert (Hmid : 4 < n < 36) by lia.
  rewrite (H6 Post' Hmid), (H6 Post Hmid). reflexivity.
Qed.

(** The theorem at the three-byte payload of the repository's test. *)
Lemma ForwardWorker_decoding_failures_witness :
  length (TaskRequest.Payload shortRequest) < 4 /\
  ForwardWorker.HandleTask echoPost localhost shortRequest =
  ([Logw Info "Handling task"
      [("task_id", bytes (TaskRequest.TaskId shortRequest));
       ("payload_length", len (TaskRequest.Payload shortRequest))];
    Logw Error "Payload too short"
      [("min_required", int 4);
       ("actual", len (TaskRequest.Payload shortRequest))]],
   Err (Errorf "payload too short: expected at least %d bytes" [int 4])).
Proof.
  assert (Hlen : length (TaskRequest.Payload shortRequest) < 4) by (cbn; lia).
  split; [exact Hlen |].
  exact (proj1 (ForwardWorker_decoding_failures echoPost localhost
                  shortRequest) Hlen).
Defined.

(** On a payload of at least 36 bytes the remote-forward worker posts, to
    the configured URL and as [application/json], the 137-byte JSON-RPC
    text with the keys [id], [jsonrpc], [method], [params] in this order
    and, as the only parameter, [0x] followed by the lower-case
    hexadecimal text of payload bytes 4 to 35. The selector is not
    checked, and the outcome is decided by the answer to that one
    request. *)
Theorem ForwardWorker_request_body
    (Post : string -> string -> list byte -> result ForwardWorker.Response)
    (tw : ForwardWorker.TaskWorker) (t : TaskRequest.t) :
  36 <= length (TaskRequest.Payload t) ->
  let txHash := firstn 32 (skipn 4 (TaskRequest.Payload t)) in
  let body :=
    Bytes.of_string
      (requestPrefix ++ Hex.EncodeToString txHash ++ requestSuffix) in
  length body = 137 /\
  outcome (ForwardWorker.HandleTask Post tw t) =
  match Post (ForwardWorker.RPCServerURL (ForwardWorker.config tw))
             "application/json" body with
  | Ok resp =>
      match ForwardWorker.Body resp with
      | Ok received =>
          Ok {| TaskResponse.TaskId := TaskRequest.TaskId t;
                TaskResponse.Result := received |}
      | Err e => Err (ErrRemoteResponse e)
      | Panic msg => Panic msg
      end
  | Err e => Err (ErrRemoteUnavailable e)
  | Panic msg => Panic msg
  end.
Proof.
  intros Hlen txHash body. split.
  - unfold body. rewrite of_string_length, !append_length.
    rewrite EncodeToString_length. unfold txHash.
    rewrite length_take, length_drop.
    replace (32 `min` (length (TaskRequest.Payload t) - 4)) with 32 by lia.
    reflexivity.
  - rewrite (Forward_HandleTask_outcome Post tw t Hlen).
    fold txHash. rewrite rpcRequest_text. reflexivity.
Qed.

(** The theorem against an endpoint that echoes the request body. *)
Lemma ForwardWorker_request_body_witness :
  36 <= length (TaskRequest.Payload testRequest) /\
  outcome (ForwardWorker.HandleTask echoPost localhost testRequest) =
  Ok {| TaskResponse.TaskId := TaskRequest.TaskId testRequest;
        TaskResponse.Result :=
          Bytes.of_string
            (requestPrefix ++
             Hex.EncodeToString
               (firstn 32 (skipn 4 (TaskRequest.Payload testRequest))) ++
             requestSuffix) |}.
Proof.
  assert (Hlen : 36 <= length (TaskRequest.Payload testRequest))
    by (cbn; lia).
  split; [exact Hlen |].
  exact (proj2 (ForwardWorker_request_body echoPost localhost testRequest
                  Hlen)).
Defined.
